(** * Typing & Spelling Rate (NVDA add-on): rate resolution and typed-character echo

    A shallow embedding of [globalPlugins/typingEchoRate.py]:
    - the persisted per-synthesizer maps and their loaders ([_load*Map]),
    - the rate getters ([_get*ForSynth]) and the two offset computations
      ([_computeTypingRateOffset], [_computeSpellingRateOffset]),
    - the speech dispatch that wraps a sequence in rate commands,
    - the replacement of NVDA's [speakTypedCharacters], with its word buffer.

    Python exceptions are modelled with a small error monad; [try]/[except]
    blocks of the source are written with [try_except].  Library functions
    the add-on calls but does not define ([json.loads], [int] on a string,
    [unicodedata.category] outside ASCII) are the methods of the class
    [PyLib]; what NVDA answers when asked is the record [Host]. *)

From Stdlib Require Import ZArith Lia List Bool Ascii String.
From stdpp Require Import base option gmap strings list pretty.
Import ListNotations.

Local Open Scope Z_scope.
Set Warnings "-register-all".

(** ** Python exceptions *)

Module Py.

(** The [Exception] subclasses that the modelled calls can raise.  Every
    handler in the source is [except Exception], which catches all of
    them. *)
Inductive PyExc : Type :=
| TypeError
| ValueError
| OverflowError
| RecursionError
| JSONDecodeError.

Inductive Exc (A : Type) : Type :=
| Ret (a : A)
| Raise (e : PyExc).
Arguments Ret {A} a.
Arguments Raise {A} e.

Definition bind {A B : Type} (m : Exc A) (k : A -> Exc B) : Exc B :=
  match m with
  | Ret a => k a
  | Raise e => Raise e
  end.

(** [try: body / except Exception: handler] *)
Definition try_except {A : Type} (body handler : Exc A) : Exc A :=
  match body with
  | Ret a => Ret a
  | Raise _ => handler
  end.

(** [try: body / except TypeError: handler] lets every other exception
    through. *)
Definition try_except_TypeError {A : Type} (body handler : Exc A) : Exc A :=
  match body with
  | Raise TypeError => handler
  | r => r
  end.

(** The call comes back with a value: nothing is raised. *)
Definition returns {A : Type} (m : Exc A) : Prop := exists a, m = Ret a.

End Py.
Import Py.

#[global] Instance exc_mret : MRet Exc := @Ret.
#[global] Instance exc_mbind : MBind Exc := fun A B k m => bind m k.

(** ** Python strings of the configuration

    Synthesizer identities and persisted JSON texts are [string]s whose
    characters are the code points U+0000..U+00FF. *)

Module PyStr.

(** [bool(s)] for a [str]: non-empty. *)
Definition truthy (s : string) : bool :=
  match s with
  | EmptyString => false
  | String _ _ => true
  end.

(** [str.lower] on one code point below U+0100: A-Z and the Latin-1
    capitals (U+00C0..U+00DE without the multiplication sign U+00D7) move
    32 places up, everything else stays. *)
Definition lower_char (c : ascii) : ascii :=
  let n := N_of_ascii c in
  if ((65 <=? n) && (n <=? 90))%N
     || ((192 <=? n) && (n <=? 222) && negb (n =? 215))%N
  then ascii_of_N (n + 32)
  else c.

Fixpoint lower (s : string) : string :=
  match s with
  | EmptyString => EmptyString
  | String c s' => String (lower_char c) (lower s')
  end.

(** [s.startswith(p)] *)
Fixpoint startswith (s p : string) {struct p} : bool :=
  match p, s with
  | EmptyString, _ => true
  | String _ _, EmptyString => false
  | String a p', String b s' => Ascii.eqb a b && startswith s' p'
  end.

(** [needle in hay] *)
Fixpoint contains (needle hay : string) : bool :=
  startswith hay needle ||
  match hay with
  | EmptyString => false
  | String _ hay' => contains needle hay'
  end.

End PyStr.

(** ** Configuration section of the add-on *)

(** [config.conf["typingEchoRate"]]: a key is either absent ([None]) or
    holds a value of the type its config spec declares
    ([_initConfigSpec]). *)
Record Conf : Type := mkConf {
  enabled : option bool;
  enabledSpelling : option bool;
  typingRatesJson : option string;
  typingRate : option Z;
  oneCoreBoostJson : option string;
  oneCoreBoost : option Z;
  spellingRatesJson : option string;
  spellingRate : option Z;
  oneCoreSpellBoostJson : option string;
  oneCoreSpellBoost : option Z;
  applyToWords : option bool
}.

(** [conf.get(key, dflt)] *)
Definition conf_get {A : Type} (field : option A) (dflt : A) : A :=
  match field with
  | Some v => v
  | None => dflt
  end.

(** [conf.get(key, "") or ""] *)
Definition conf_get_raw (field : option string) : string :=
  let v := conf_get field "" in
  if PyStr.truthy v then v else "".


(** ** Speech sequences and the host *)

(** A typed character is its code point ([ord(ch)]); a text is the list of
    its code points. *)
Definition Text : Type := list Z.

(** The elements of a speech sequence: text, [RateCommand(offset=o)]
    ([Some o]) or [RateCommand()] ([None]), and the commands NVDA itself
    puts into spelling sequences. *)
Inductive SpeechItem : Type :=
| Str (text : Text)
| RateCommand (offset : option Z)
| HostCommand (name : string).

Inductive TypingEcho : Type := OFF | EDIT_CONTROLS | ALWAYS.

#[global] Instance TypingEcho_eq_dec : EqDecision TypingEcho.
Proof. solve_decision. Defined.

(** What NVDA answers when the add-on asks. *)
Record Host : Type := mkHost {
  _getConf : Conf;                    (* config.conf[_ADDON_SECTION] *)
  _getActiveSynthName : string;       (* "" when no synthesizer is known *)
  _getDefaultSpeechRate : Z;          (* the synthesizer's configured rate *)
  isTypingProtected : bool;           (* api.isTypingProtected() *)
  _isFocusEditable : bool;
  speakTypedWords : TypingEcho;       (* config.conf["keyboard"][...] *)
  speakTypedCharacters : TypingEcho;
  logIO : bool;                       (* log.isEnabledFor(log.IO) *)
  (* speech.getSpellingSpeech(text, *args, **kwargs); the extra arguments
     are opaque and an unexpected one raises TypeError *)
  getSpellingSpeech : Text -> list Z -> Exc (list SpeechItem)
}.

(** ** JSON values as [json.loads] returns them *)

(** A Python float: a finite binary fraction [m * 2^e], an infinity or a
    NaN. *)
Inductive PyFloat : Type :=
| FFinite (m e : Z)
| FInf (negative : bool)
| FNaN.

(** [int(x)] on a float truncates towards zero. *)
Definition int_of_float (x : PyFloat) : Exc Z :=
  match x with
  | FFinite m e => Ret (if 0 <=? e then m * 2 ^ e else Z.quot m (2 ^ (- e)))
  | FInf _ => Raise OverflowError
  | FNaN => Raise ValueError
  end.

(** A decoded JSON document.  The payload of [JObject] is the [items()]
    view of the decoded [dict], in iteration order. *)
Inductive JValue : Type :=
| JNull
| JBool (b : bool)
| JInt (n : Z)
| JFloat (f : PyFloat)
| JStr (s : string)
| JArray (l : list JValue)
| JObject (items : list (string * JValue)).

(** [isinstance(data, dict)] *)
Definition is_dict (v : JValue) : bool :=
  match v with
  | JObject _ => true
  | _ => false
  end.

(** First letter of a Unicode general category. *)
Inductive MajorCategory : Type := CatL | CatM | CatN | CatP | CatS | CatZ | CatC.

(** The Python library under the add-on. *)
Class PyLib : Type := {
  (* json.loads(raw); raises on a text that is not JSON *)
  json_loads : string -> Exc JValue;
  (* int(s) on a str *)
  int_of_str : string -> Exc Z;
  (* unicodedata.category(ch)[0] for ch from U+0080 on *)
  unicode_category0 : Z -> MajorCategory
}.

(** [unicodedata.category(ch)[0]] on ASCII: controls are Cc, the space is
    Zs, digits Nd, letters Lu/Ll, [$ + < = > ^ ` | ~] are symbols and the
    rest punctuation. *)
Definition ascii_category0 (ch : Z) : MajorCategory :=
  if (ch <? 32) || (ch =? 127) then CatC
  else if ch =? 32 then CatZ
  else if (48 <=? ch) && (ch <=? 57) then CatN
  else if ((65 <=? ch) && (ch <=? 90)) || ((97 <=? ch) && (ch <=? 122)) then CatL
  else if (ch =? 36) || (ch =? 43) || (ch =? 60) || (ch =? 61) || (ch =? 62)
          || (ch =? 94) || (ch =? 96) || (ch =? 124) || (ch =? 126) then CatS
  else CatP.

Section AddOn.

Context `{PyLib}.

Definition category0 (ch : Z) : MajorCategory :=
  if ch <? 128 then ascii_category0 ch else unicode_category0 ch.

(** [int(v)] on a decoded value. *)
Definition py_int (v : JValue) : Exc Z :=
  match v with
  | JInt n => Ret n
  | JBool b => Ret (if b then 1 else 0)
  | JFloat f => int_of_float f
  | JStr s => int_of_str s
  | JNull | JArray _ | JObject _ => Raise TypeError
  end.

(** *** RateStore: the four persisted maps *)

(** The loop of the loaders:
    [for k, v in data.items(): try: out[str(k)] = int(v) / except: continue] *)
Definition collect_ints (items : list (string * JValue)) : gmap string Z :=
  foldl (fun out kv =>
           match try_except (n ← py_int kv.2; mret (Some n)) (mret None) with
           | Ret (Some n) => <[kv.1 := n]> out
           | _ => out
           end) ∅ items.

(** The body the four loaders share word for word: decode, keep the
    integer entries of a dict, and return [{}] when decoding raises or
    the document is not a dict. *)
Definition load_int_map (raw : string) : Exc (gmap string Z) :=
  r ← try_except
        (data ← json_loads raw;
         match data with
         | JObject items => mret (Some (collect_ints items))
         | _ => mret None
         end)
        (mret None);
  match r with
  | Some out => mret out
  | None => mret ∅
  end.

Definition _loadBoostMap (conf : Conf) : Exc (gmap string Z) :=
  let raw := conf_get_raw (oneCoreBoostJson conf) in
  load_int_map raw.

Definition _loadSpellBoostMap (conf : Conf) : Exc (gmap string Z) :=
  let raw := conf_get_raw (oneCoreSpellBoostJson conf) in
  load_int_map raw.

Definition _loadTypingRatesMap (conf : Conf) : Exc (gmap string Z) :=
  let raw := conf_get_raw (typingRatesJson conf) in
  load_int_map raw.

Definition _loadSpellingRatesMap (conf : Conf) : Exc (gmap string Z) :=
  let raw := conf_get_raw (spellingRatesJson conf) in
  load_int_map raw.

(** [if synthName and synthName in m] picks the per-synthesizer entry. *)
Definition entry_for (m : gmap string Z) (synthName : string) : option Z :=
  if PyStr.truthy synthName then m !! synthName else None.

Definition _getBoostForSynth (conf : Conf) (synthName : string) : Exc Z :=
  m ← _loadBoostMap conf;
  match entry_for m synthName with
  | Some v => try_except (mret v) (mret 0)
  | None => try_except (mret (conf_get (oneCoreBoost conf) 0)) (mret 0)
  end.

Definition _getSpellBoostForSynth (conf : Conf) (synthName : string) : Exc Z :=
  m ← _loadSpellBoostMap conf;
  match entry_for m synthName with
  | Some v => try_except (mret v) (mret 0)
  | None => try_except (mret (conf_get (oneCoreSpellBoost conf) 0)) (mret 0)
  end.

Definition _getTypingRateForSynth (conf : Conf) (synthName : string) : Exc Z :=
  m ← _loadTypingRatesMap conf;
  match entry_for m synthName with
  | Some v => mret v
  | None => try_except (mret (conf_get (typingRate conf) (-1))) (mret (-1))
  end.

Definition _getSpellingRateForSynth (conf : Conf) (synthName : string) : Exc Z :=
  m ← _loadSpellingRatesMap conf;
  match entry_for m synthName with
  | Some v => mret v
  | None => try_except (mret (conf_get (spellingRate conf) (-1))) (mret (-1))
  end.

(** *** RateResolver *)

Definition _isOneCoreSynthName (name : string) : bool :=
  let n := PyStr.lower name in
  PyStr.contains "onecore" n || String.eqb n "onecore".

(** [if v < 0: v = 0 / elif v > 100: v = 100], written out four times in
    the two offset computations. *)
Definition clampPercent (v : Z) : Z :=
  if v <? 0 then 0 else if v >? 100 then 100 else v.

Definition _computeTypingRateOffset (h : Host) : Exc Z :=
  let conf := _getConf h in
  if negb (conf_get (enabledSpelling conf) (conf_get (enabled conf) true))
  then mret 0
  else
    let synthName := _getActiveSynthName h in
    let defaultRate := _getDefaultSpeechRate h in
    typingRate ← _getTypingRateForSynth conf synthName;
    let typingRate := if typingRate <? 0 then defaultRate else typingRate in
    let typingRate := clampPercent typingRate in
    let offset := typingRate - defaultRate in
    if _isOneCoreSynthName synthName then
      boost ← _getBoostForSynth conf synthName;
      let boost := clampPercent boost in
      mret (offset + boost)
    else mret offset.

Definition _computeSpellingRateOffset (h : Host) : Exc Z :=
  let conf := _getConf h in
  if negb (conf_get (enabled conf) true)
  then mret 0
  else
    let synthName := _getActiveSynthName h in
    let defaultRate := _getDefaultSpeechRate h in
    spellingRate ← _getSpellingRateForSynth conf synthName;
    let spellingRate := if spellingRate <? 0 then defaultRate else spellingRate in
    let spellingRate := clampPercent spellingRate in
    let offset := spellingRate - defaultRate in
    if _isOneCoreSynthName synthName then
      boost ← _getSpellBoostForSynth conf synthName;
      let boost := clampPercent boost in
      mret (offset + boost)
    else mret offset.

(** *** SpeechDispatch

    Each function ends in exactly one [_speech.speak(...)]; its model
    returns the sequence handed to that call. *)

Definition _speakWithTypingRate (h : Host) (seq : list SpeechItem)
  : Exc (list SpeechItem) :=
  offset ← _computeTypingRateOffset h;
  if offset =? 0 then mret seq
  else mret ([RateCommand (Some offset)] ++ seq ++ [RateCommand None]).

Definition _speakSpellingWithTypingRate (h : Host) (text : Text)
  : Exc (list SpeechItem) :=
  seq ← getSpellingSpeech h text [];
  _speakWithTypingRate h seq.

Definition _speakTextWithTypingRate (h : Host) (text : Text)
  : Exc (list SpeechItem) :=
  _speakWithTypingRate h [Str text].

Definition _speakSpellingWithSpellingRate (h : Host) (text : Text) (args : list Z)
  : Exc (list SpeechItem) :=
  offset ← _computeSpellingRateOffset h;
  seq ← try_except_TypeError (getSpellingSpeech h text args)
                             (getSpellingSpeech h text []);
  if offset =? 0 then mret seq
  else mret ([RateCommand (Some offset)] ++ seq ++ [RateCommand None]).

(** *** The replacement of [speakTypedCharacters] *)

Definition PROTECTED_CHAR : Z := 42.          (* "*" *)
Definition FIRST_NONCONTROL_CHAR : Z := 32.   (* " " *)

(** What one keystroke makes the handler do, in order: the calls it
    places.  [SpeakSpellingWithTypingRate] and [SpeakTextWithTypingRate]
    are the add-on's own character and word requests, which go through
    the rate resolver; [CoreSpeakText] is NVDA's unmodified
    [_speech.speakText]; [LogIo] is [log.io("typed word: ...")]. *)
Inductive Call : Type :=
| SpeakSpellingWithTypingRate (text : Text)
| SpeakTextWithTypingRate (text : Text)
| CoreSpeakText (text : Text)
| LogIo (typedWord : Text).

(** [mode == ALWAYS or (mode == EDIT_CONTROLS and _isFocusEditable())] *)
Definition always_or_editable (h : Host) (mode : TypingEcho) : bool :=
  bool_decide (mode = ALWAYS)
  || (bool_decide (mode = EDIT_CONTROLS) && _isFocusEditable h).

(** [unicodedata.category(ch)[0] in "LMN"] *)
Definition in_LMN (c : MajorCategory) : bool :=
  match c with
  | CatL | CatM | CatN => true
  | _ => false
  end.

(** The [elif len(_curWordChars) > 0] branch after the buffer has been
    joined and cleared: log, then speak the word on one of the two
    paths. *)
Definition typed_word_calls (h : Host) (typingIsProtected : bool)
           (typedWord : Text) : list Call :=
  (if logIO h then [LogIo typedWord] else []) ++
  (if negb typingIsProtected && conf_get (applyToWords (_getConf h)) false then
     let typingEchoMode := speakTypedWords h in
     if negb (bool_decide (typingEchoMode = OFF)) then
       if always_or_editable h typingEchoMode
       then [SpeakTextWithTypingRate typedWord]
       else []
     else []
   else
     let typingEchoMode := speakTypedWords h in
     if negb (bool_decide (typingEchoMode = OFF)) && negb typingIsProtected then
       if always_or_editable h typingEchoMode
       then [CoreSpeakText typedWord]
       else []
     else []).

(** The last block of the handler: echo of the character itself. *)
Definition typed_char_calls (h : Host) (ch realChar : Z) : list Call :=
  let typingEchoMode := speakTypedCharacters h in
  if negb (bool_decide (typingEchoMode = OFF)) && (FIRST_NONCONTROL_CHAR <=? ch) then
    if always_or_editable h typingEchoMode
    then [SpeakSpellingWithTypingRate [realChar]]
    else []
  else [].

(** One keystroke: the buffer [_curWordChars] before, the buffer after
    and the calls placed.  The body of the source sits in a
    [try]/[except Exception] that hands the keystroke to NVDA's original
    handler; the host's answers are values here, so nothing in the body
    raises and the handler is never entered. *)
Definition _patched_speakTypedCharacters (h : Host) (ch : Z)
           (_curWordChars : list Z) : list Z * list Call :=
  let typingIsProtected := isTypingProtected h in
  let realChar := if typingIsProtected then PROTECTED_CHAR else ch in
  if in_LMN (category0 ch) then
    (_curWordChars ++ [realChar], typed_char_calls h ch realChar)
  else if ch =? 8 then
    (removelast _curWordChars, typed_char_calls h ch realChar)
  else if ch =? 127 then
    (_curWordChars, [])
  else if (0 <? length _curWordChars)%nat then
    let typedWord := _curWordChars in
    ([], typed_word_calls h typingIsProtected typedWord
           ++ typed_char_calls h ch realChar)
  else
    (_curWordChars, typed_char_calls h ch realChar).

(** A run of keystrokes, each with what the host answers at that
    moment. *)
Fixpoint typeKeys (keys : list (Host * Z)) (_curWordChars : list Z)
  : list Z * list Call :=
  match keys with
  | [] => (_curWordChars, [])
  | (h, ch) :: keys' =>
      let '(buf, calls) := _patched_speakTypedCharacters h ch _curWordChars in
      let '(buf', calls') := typeKeys keys' buf in
      (buf', calls ++ calls')
  end.

(** How a call is carried out: the sequence that reaches
    [_speech.speak], or the text that reaches [_speech.speakText] or the
    log. *)
Inductive Spoken : Type :=
| Speak (seq : list SpeechItem)
| SpeakText (text : Text)
| Logged (typedWord : Text).

Definition perform (h : Host) (c : Call) : Exc Spoken :=
  match c with
  | SpeakSpellingWithTypingRate text =>
      seq ← _speakSpellingWithTypingRate h text; mret (Speak seq)
  | SpeakTextWithTypingRate text =>
      seq ← _speakTextWithTypingRate h text; mret (Speak seq)
  | CoreSpeakText text => mret (SpeakText text)
  | LogIo w => mret (Logged w)
  end.

(** *** Vocabulary of the specification *)

Inductive Purpose : Type := Typing | Spelling.

(** The flag each offset computation reads first. *)
Definition purposeEnabled (p : Purpose) (conf : Conf) : bool :=
  match p with
  | Typing => conf_get (enabledSpelling conf) (conf_get (enabled conf) true)
  | Spelling => conf_get (enabled conf) true
  end.

Definition resolveOffset (p : Purpose) (h : Host) : Exc Z :=
  match p with
  | Typing => _computeTypingRateOffset h
  | Spelling => _computeSpellingRateOffset h
  end.

(** The stored rate and boost a purpose resolves for a synthesizer:
    the per-synthesizer entry, else the scalar fallback. *)
Definition storedRate (p : Purpose) (conf : Conf) (synthName : string) : Exc Z :=
  match p with
  | Typing => _getTypingRateForSynth conf synthName
  | Spelling => _getSpellingRateForSynth conf synthName
  end.

Definition storedBoost (p : Purpose) (conf : Conf) (synthName : string) : Exc Z :=
  match p with
  | Typing => _getBoostForSynth conf synthName
  | Spelling => _getSpellBoostForSynth conf synthName
  end.

(** The four persisted map settings, their raw text and their loader. *)
Inductive MapSetting : Type :=
| TypingRates | SpellingRates | TypingBoosts | SpellingBoosts.

Definition rawSetting (s : MapSetting) (conf : Conf) : string :=
  match s with
  | TypingRates => conf_get_raw (typingRatesJson conf)
  | SpellingRates => conf_get_raw (spellingRatesJson conf)
  | TypingBoosts => conf_get_raw (oneCoreBoostJson conf)
  | SpellingBoosts => conf_get_raw (oneCoreSpellBoostJson conf)
  end.

Definition loadSetting (s : MapSetting) (conf : Conf) : Exc (gmap string Z) :=
  match s with
  | TypingRates => _loadTypingRatesMap conf
  | SpellingRates => _loadSpellingRatesMap conf
  | TypingBoosts => _loadBoostMap conf
  | SpellingBoosts => _loadSpellBoostMap conf
  end.

(** Steps 3 to 5 of the resolution: a negative rate follows the default
    rate, the rate is clamped, and the offset is its distance from the
    default rate. *)
Definition baseOffset (rate defaultRate : Z) : Z :=
  clampPercent (if rate <? 0 then defaultRate else rate) - defaultRate.

Definition ratesOf (p : Purpose) : MapSetting :=
  match p with
  | Typing => TypingRates
  | Spelling => SpellingRates
  end.


(** Following the specification's words (4.3, rule 1): the class of a typed
    character. *)
Inductive KeyClass : Type :=
| WordConstituent | DeleteLast | DiscardSilently | Boundary.

Definition classify (ch : Z) : KeyClass :=
  if in_LMN (category0 ch) then WordConstituent
  else if ch =? 8 then DeleteLast
  else if ch =? 127 then DiscardSilently
  else Boundary.

(** A control character: below the first printable one. *)
Definition isControl (ch : Z) : bool := ch <? FIRST_NONCONTROL_CHAR.



Definition isCharRequest (c : Call) : bool :=
  match c with
  | SpeakSpellingWithTypingRate _ => true
  | _ => false
  end.






End AddOn.

(** ** A concrete library and host, for running the model

    [Sample.lib] reads the compact JSON that [_save*Map] writes
    ([json.dumps] with separators [","] and [":"]): a flat object with
    string keys free of escapes and integer values; besides that the empty
    array and a bare integer.  Every other text is reported as invalid.
    Its [int(s)] reads plain decimal literals and its category table covers
    Latin-1. *)

Module Sample.

Definition dquote : ascii := "034"%char.

Definition digit (c : ascii) : option Z :=
  let n := Z.of_N (N_of_ascii c) in
  if (48 <=? n) && (n <=? 57) then Some (n - 48) else None.

Fixpoint read_digits (s : string) (acc : Z) : Z * string :=
  match s with
  | String c s' =>
      match digit c with
      | Some d => read_digits s' (acc * 10 + d)
      | None => (acc, s)
      end
  | EmptyString => (acc, s)
  end.

Definition starts_with_digit (s : string) : bool :=
  match s with
  | String c _ => bool_decide (is_Some (digit c))
  | EmptyString => false
  end.

Definition read_int (s : string) : option (Z * string) :=
  match s with
  | String "-" s' =>
      if starts_with_digit s'
      then let '(n, rest) := read_digits s' 0 in Some (- n, rest)
      else None
  | _ => if starts_with_digit s then Some (read_digits s 0) else None
  end.

Fixpoint read_key (s : string) : option (string * string) :=
  match s with
  | EmptyString => None
  | String c s' =>
      if Ascii.eqb c dquote then Some (EmptyString, s')
      else match read_key s' with
           | Some (k, rest) => Some (String c k, rest)
           | None => None
           end
  end.

(** [d[k] = v] on the items of a dict: a known key keeps its place. *)
Fixpoint dict_set (k : string) (v : JValue) (items : list (string * JValue))
  : list (string * JValue) :=
  match items with
  | [] => [(k, v)]
  | (k', v') :: items' =>
      if String.eqb k k' then (k, v) :: items'
      else (k', v') :: dict_set k v items'
  end.

Fixpoint read_members (fuel : nat) (s : string) (items : list (string * JValue))
  : option (list (string * JValue)) :=
  match fuel with
  | O => None
  | S fuel' =>
      match s with
      | String q s1 =>
          if Ascii.eqb q dquote then
            match read_key s1 with
            | Some (k, String ":" s2) =>
                match read_int s2 with
                | Some (n, String "," s3) =>
                    read_members fuel' s3 (dict_set k (JInt n) items)
                | Some (n, String "}" EmptyString) =>
                    Some (dict_set k (JInt n) items)
                | _ => None
                end
            | _ => None
            end
          else None
      | EmptyString => None
      end
  end.

Definition loads (raw : string) : Exc JValue :=
  if String.eqb raw "{}" then Ret (JObject [])
  else if String.eqb raw "[]" then Ret (JArray [])
  else match raw with
       | String "{" s =>
           match read_members (String.length raw) s [] with
           | Some items => Ret (JObject items)
           | None => Raise JSONDecodeError
           end
       | _ =>
           match read_int raw with
           | Some (n, EmptyString) => Ret (JInt n)
           | _ => Raise JSONDecodeError
           end
       end.

Definition int_str (s : string) : Exc Z :=
  match read_int s with
  | Some (n, EmptyString) => Ret n
  | _ => Raise ValueError
  end.

(** Latin-1 Supplement; code points from U+0100 on are outside this
    table and reported as unassigned. *)
Definition latin1_category0 (ch : Z) : MajorCategory :=
  if ch <? 160 then CatC
  else if ch =? 160 then CatZ
  else if (ch =? 170) || (ch =? 181) || (ch =? 186) then CatL
  else if (ch =? 178) || (ch =? 179) || (ch =? 185)
          || ((188 <=? ch) && (ch <=? 190)) then CatN
  else if (ch =? 161) || (ch =? 167) || (ch =? 171) || (ch =? 182)
          || (ch =? 183) || (ch =? 187) || (ch =? 191) then CatP
  else if ch =? 173 then CatC
  else if ch <? 192 then CatS
  else if (ch =? 215) || (ch =? 247) then CatS
  else if ch <? 256 then CatL
  else CatC.

Definition lib : PyLib :=
  {| json_loads := loads;
     int_of_str := int_str;
     unicode_category0 := latin1_category0 |}.

(** The JSON text [{"name":value}]. *)
Definition entry_json (name value : string) : string :=
  "{" +:+ String dquote name +:+ String dquote ":" +:+ value +:+ "}".

(** A configuration that stores the same rates and boosts for typing and
    for spelling, and leaves the flags at their defaults. *)
Definition conf (ratesJson : option string) (rate : option Z)
           (boostJson : option string) (boost : option Z) : Conf :=
  {| enabled := None; enabledSpelling := None;
     typingRatesJson := ratesJson; typingRate := rate;
     oneCoreBoostJson := boostJson; oneCoreBoost := boost;
     spellingRatesJson := ratesJson; spellingRate := rate;
     oneCoreSpellBoostJson := boostJson; oneCoreSpellBoost := boost;
     applyToWords := None |}.


(** NVDA spells a text as the text itself followed by an end of
    utterance, and knows no extra argument. *)
Definition spelling (text : Text) (args : list Z) : Exc (list SpeechItem) :=
  match args with
  | [] => Ret [Str text; HostCommand "EndUtteranceCommand"]
  | _ :: _ => Raise TypeError
  end.

Definition host (conf : Conf) (synthName : string) (defaultRate : Z) : Host :=
  {| _getConf := conf;
     _getActiveSynthName := synthName;
     _getDefaultSpeechRate := defaultRate;
     isTypingProtected := false;
     _isFocusEditable := true;
     speakTypedWords := ALWAYS;
     speakTypedCharacters := ALWAYS;
     logIO := false;
     getSpellingSpeech := spelling |}.

(** The same host with the typing-protection and word-option answers
    changed. *)
Definition typingHost (protected : bool) (applyWords : option bool) : Host :=
  {| _getConf :=
       {| enabled := None; enabledSpelling := None;
          typingRatesJson := None; typingRate := None;
          oneCoreBoostJson := None; oneCoreBoost := None;
          spellingRatesJson := None; spellingRate := None;
          oneCoreSpellBoostJson := None; oneCoreSpellBoost := None;
          applyToWords := applyWords |};
     _getActiveSynthName := "espeak";
     _getDefaultSpeechRate := 50;
     isTypingProtected := protected;
     _isFocusEditable := true;
     speakTypedWords := ALWAYS;
     speakTypedCharacters := ALWAYS;
     logIO := true;
     getSpellingSpeech := spelling |}.

End Sample.

(** ** The settings panel: saving, previewing, migrating *)

(** [conf[key] = value] for the keys the add-on writes. *)
Definition set_enabled (v : bool) (c : Conf) : Conf :=
  {| enabled := Some v; enabledSpelling := enabledSpelling c;
     typingRatesJson := typingRatesJson c; typingRate := typingRate c;
     oneCoreBoostJson := oneCoreBoostJson c; oneCoreBoost := oneCoreBoost c;
     spellingRatesJson := spellingRatesJson c; spellingRate := spellingRate c;
     oneCoreSpellBoostJson := oneCoreSpellBoostJson c;
     oneCoreSpellBoost := oneCoreSpellBoost c; applyToWords := applyToWords c |}.

Definition set_enabledSpelling (v : bool) (c : Conf) : Conf :=
  {| enabled := enabled c; enabledSpelling := Some v;
     typingRatesJson := typingRatesJson c; typingRate := typingRate c;
     oneCoreBoostJson := oneCoreBoostJson c; oneCoreBoost := oneCoreBoost c;
     spellingRatesJson := spellingRatesJson c; spellingRate := spellingRate c;
     oneCoreSpellBoostJson := oneCoreSpellBoostJson c;
     oneCoreSpellBoost := oneCoreSpellBoost c; applyToWords := applyToWords c |}.

Definition set_applyToWords (v : bool) (c : Conf) : Conf :=
  {| enabled := enabled c; enabledSpelling := enabledSpelling c;
     typingRatesJson := typingRatesJson c; typingRate := typingRate c;
     oneCoreBoostJson := oneCoreBoostJson c; oneCoreBoost := oneCoreBoost c;
     spellingRatesJson := spellingRatesJson c; spellingRate := spellingRate c;
     oneCoreSpellBoostJson := oneCoreSpellBoostJson c;
     oneCoreSpellBoost := oneCoreSpellBoost c; applyToWords := Some v |}.

Definition set_typingRatesJson (v : string) (c : Conf) : Conf :=
  {| enabled := enabled c; enabledSpelling := enabledSpelling c;
     typingRatesJson := Some v; typingRate := typingRate c;
     oneCoreBoostJson := oneCoreBoostJson c; oneCoreBoost := oneCoreBoost c;
     spellingRatesJson := spellingRatesJson c; spellingRate := spellingRate c;
     oneCoreSpellBoostJson := oneCoreSpellBoostJson c;
     oneCoreSpellBoost := oneCoreSpellBoost c; applyToWords := applyToWords c |}.

Definition set_typingRate (v : Z) (c : Conf) : Conf :=
  {| enabled := enabled c; enabledSpelling := enabledSpelling c;
     typingRatesJson := typingRatesJson c; typingRate := Some v;
     oneCoreBoostJson := oneCoreBoostJson c; oneCoreBoost := oneCoreBoost c;
     spellingRatesJson := spellingRatesJson c; spellingRate := spellingRate c;
     oneCoreSpellBoostJson := oneCoreSpellBoostJson c;
     oneCoreSpellBoost := oneCoreSpellBoost c; applyToWords := applyToWords c |}.

Definition set_oneCoreBoostJson (v : string) (c : Conf) : Conf :=
  {| enabled := enabled c; enabledSpelling := enabledSpelling c;
     typingRatesJson := typingRatesJson c; typingRate := typingRate c;
     oneCoreBoostJson := Some v; oneCoreBoost := oneCoreBoost c;
     spellingRatesJson := spellingRatesJson c; spellingRate := spellingRate c;
     oneCoreSpellBoostJson := oneCoreSpellBoostJson c;
     oneCoreSpellBoost := oneCoreSpellBoost c; applyToWords := applyToWords c |}.

Definition set_oneCoreBoost (v : Z) (c : Conf) : Conf :=
  {| enabled := enabled c; enabledSpelling := enabledSpelling c;
     typingRatesJson := typingRatesJson c; typingRate := typingRate c;
     oneCoreBoostJson := oneCoreBoostJson c; oneCoreBoost := Some v;
     spellingRatesJson := spellingRatesJson c; spellingRate := spellingRate c;
     oneCoreSpellBoostJson := oneCoreSpellBoostJson c;
     oneCoreSpellBoost := oneCoreSpellBoost c; applyToWords := applyToWords c |}.

Definition set_spellingRatesJson (v : string) (c : Conf) : Conf :=
  {| enabled := enabled c; enabledSpelling := enabledSpelling c;
     typingRatesJson := typingRatesJson c; typingRate := typingRate c;
     oneCoreBoostJson := oneCoreBoostJson c; oneCoreBoost := oneCoreBoost c;
     spellingRatesJson := Some v; spellingRate := spellingRate c;
     oneCoreSpellBoostJson := oneCoreSpellBoostJson c;
     oneCoreSpellBoost := oneCoreSpellBoost c; applyToWords := applyToWords c |}.

Definition set_spellingRate (v : Z) (c : Conf) : Conf :=
  {| enabled := enabled c; enabledSpelling := enabledSpelling c;
     typingRatesJson := typingRatesJson c; typingRate := typingRate c;
     oneCoreBoostJson := oneCoreBoostJson c; oneCoreBoost := oneCoreBoost c;
     spellingRatesJson := spellingRatesJson c; spellingRate := Some v;
     oneCoreSpellBoostJson := oneCoreSpellBoostJson c;
     oneCoreSpellBoost := oneCoreSpellBoost c; applyToWords := applyToWords c |}.

Definition set_oneCoreSpellBoostJson (v : string) (c : Conf) : Conf :=
  {| enabled := enabled c; enabledSpelling := enabledSpelling c;
     typingRatesJson := typingRatesJson c; typingRate := typingRate c;
     oneCoreBoostJson := oneCoreBoostJson c; oneCoreBoost := oneCoreBoost c;
     spellingRatesJson := spellingRatesJson c; spellingRate := spellingRate c;
     oneCoreSpellBoostJson := Some v;
     oneCoreSpellBoost := oneCoreSpellBoost c; applyToWords := applyToWords c |}.

Definition set_oneCoreSpellBoost (v : Z) (c : Conf) : Conf :=
  {| enabled := enabled c; enabledSpelling := enabledSpelling c;
     typingRatesJson := typingRatesJson c; typingRate := typingRate c;
     oneCoreBoostJson := oneCoreBoostJson c; oneCoreBoost := oneCoreBoost c;
     spellingRatesJson := spellingRatesJson c; spellingRate := spellingRate c;
     oneCoreSpellBoostJson := oneCoreSpellBoostJson c;
     oneCoreSpellBoost := Some v; applyToWords := applyToWords c |}.

(** The same host with another add-on section. *)
Definition with_conf (h : Host) (c : Conf) : Host :=
  {| _getConf := c;
     _getActiveSynthName := _getActiveSynthName h;
     _getDefaultSpeechRate := _getDefaultSpeechRate h;
     isTypingProtected := isTypingProtected h;
     _isFocusEditable := _isFocusEditable h;
     speakTypedWords := speakTypedWords h;
     speakTypedCharacters := speakTypedCharacters h;
     logIO := logIO h;
     getSpellingSpeech := getSpellingSpeech h |}.

(** [json.dumps(m, ensure_ascii=False, separators=(",", ":"))] on a map
    from strings to integers. *)
Class PyDumps : Type := {
  json_dumps : gmap string Z -> Exc string
}.

(** The controls of the settings panel, as [onSave] and the test buttons
    read them: each slider field is the outcome of
    [int(slider.GetValue())]. *)
Record Panel : Type := mkPanel {
  enableCtrl : bool;
  enableSpellCtrl : bool;
  applyWordsCtrl : bool;
  rateSlider : Exc Z;
  boostSlider : Exc Z;
  spellRateSlider : Exc Z;
  spellBoostSlider : Exc Z;
  _isOneCore : bool                  (* set by makeSettings *)
}.

Section Settings.

Context `{PyLib} `{PyDumps}.

Definition _saveBoostMap (conf : Conf) (m : gmap string Z) : Exc Conf :=
  try_except (s ← json_dumps m; mret (set_oneCoreBoostJson s conf))
             (mret (set_oneCoreBoostJson "" conf)).

Definition _saveSpellBoostMap (conf : Conf) (m : gmap string Z) : Exc Conf :=
  try_except (s ← json_dumps m; mret (set_oneCoreSpellBoostJson s conf))
             (mret (set_oneCoreSpellBoostJson "" conf)).

Definition _saveTypingRatesMap (conf : Conf) (m : gmap string Z) : Exc Conf :=
  try_except (s ← json_dumps m; mret (set_typingRatesJson s conf))
             (mret (set_typingRatesJson "" conf)).

Definition _saveSpellingRatesMap (conf : Conf) (m : gmap string Z) : Exc Conf :=
  try_except (s ← json_dumps m; mret (set_spellingRatesJson s conf))
             (mret (set_spellingRatesJson "" conf)).

Definition saveSetting (s : MapSetting) (conf : Conf) (m : gmap string Z) : Exc Conf :=
  match s with
  | TypingRates => _saveTypingRatesMap conf m
  | SpellingRates => _saveSpellingRatesMap conf m
  | TypingBoosts => _saveBoostMap conf m
  | SpellingBoosts => _saveSpellBoostMap conf m
  end.

(** The scalar fallback key that goes with a map setting. *)
Definition setScalar (s : MapSetting) (v : Z) (conf : Conf) : Conf :=
  match s with
  | TypingRates => set_typingRate v conf
  | SpellingRates => set_spellingRate v conf
  | TypingBoosts => set_oneCoreBoost v conf
  | SpellingBoosts => set_oneCoreSpellBoost v conf
  end.

(** The block [onSave] writes out once per setting:
    [m = load(conf)], then [m[synthName] = v; save(conf, m)] when the
    synthesizer is known and [conf[key] = v] otherwise. *)
Definition store_for_synth (s : MapSetting) (synthName : string) (v : Z)
           (conf : Conf) : Exc Conf :=
  m ← loadSetting s conf;
  if PyStr.truthy synthName
  then saveSetting s conf (<[synthName := v]> m)
  else mret (setScalar s v conf).

(** [if val < 0: val = -1 / elif val > 100: val = 100] *)
Definition clampRateForSave (val : Z) : Z :=
  if val <? 0 then -1 else if val >? 100 then 100 else val.

Definition onSave (h : Host) (ui : Panel) : Exc Conf :=
  let conf := _getConf h in
  let conf := set_enabled (enableCtrl ui) conf in
  let conf := set_enabledSpelling (enableSpellCtrl ui) conf in
  let conf := set_applyToWords (applyWordsCtrl ui) conf in
  let synthName := _getActiveSynthName h in
  val ← try_except (rateSlider ui) (mret (-1));
  let val := clampRateForSave val in
  conf ← store_for_synth TypingRates synthName val conf;
  conf ← (if _isOneCoreSynthName synthName then
            b ← try_except (boostSlider ui) (mret 0);
            let b := clampPercent b in
            store_for_synth TypingBoosts synthName b conf
          else mret conf);
  sval ← try_except (spellRateSlider ui) (mret (-1));
  let sval := clampRateForSave sval in
  conf ← store_for_synth SpellingRates synthName sval conf;
  conf ← (if _isOneCoreSynthName synthName then
            sb ← try_except (spellBoostSlider ui) (mret 0);
            let sb := clampPercent sb in
            store_for_synth SpellingBoosts synthName sb conf
          else mret conf);
  mret conf.

(** The values [makeSettings] gives the controls. *)
Definition makeSettings (h : Host) : Exc Panel :=
  let conf := _getConf h in
  let synthName := _getActiveSynthName h in
  let defaultRate := _getDefaultSpeechRate h in
  let maxRate := 100 in
  currentTypingRate ← _getTypingRateForSynth conf synthName;
  let currentTypingRate :=
    if currentTypingRate <? 0 then defaultRate else currentTypingRate in
  let currentTypingRate :=
    if currentTypingRate >? maxRate then maxRate else currentTypingRate in
  let isOneCore := _isOneCoreSynthName synthName in
  currentBoost ← (if isOneCore
                  then b ← _getBoostForSynth conf synthName; mret (clampPercent b)
                  else mret 0);
  currentSpellingRate ← _getSpellingRateForSynth conf synthName;
  let currentSpellingRate :=
    if currentSpellingRate <? 0 then defaultRate else currentSpellingRate in
  let currentSpellingRate :=
    if currentSpellingRate >? maxRate then maxRate else currentSpellingRate in
  currentSpellBoost ← (if isOneCore
                       then b ← _getSpellBoostForSynth conf synthName;
                            mret (clampPercent b)
                       else mret 0);
  mret {| enableCtrl := conf_get (enabled conf) true;
          enableSpellCtrl := conf_get (enabledSpelling conf)
                                      (conf_get (enabled conf) true);
          applyWordsCtrl := conf_get (applyToWords conf) false;
          rateSlider := Ret currentTypingRate;
          boostSlider := Ret currentBoost;
          spellRateSlider := Ret currentSpellingRate;
          spellBoostSlider := Ret currentSpellBoost;
          _isOneCore := isOneCore |}.

Definition _getTypingTestOffsetFromUI (h : Host) (ui : Panel) : Exc Z :=
  if negb (enableCtrl ui) then mret 0
  else
    r ← try_except (typingRate ← rateSlider ui; mret (Some typingRate)) (mret None);
    match r with
    | None => mret 0
    | Some typingRate =>
        let defaultRate := _getDefaultSpeechRate h in
        let offset := typingRate - defaultRate in
        if _isOneCore ui then
          boost ← try_except (boostSlider ui) (mret 0);
          let boost := clampPercent boost in
          mret (offset + boost)
        else mret offset
    end.

Definition _getSpellingTestOffsetFromUI (h : Host) (ui : Panel) : Exc Z :=
  if negb (enableCtrl ui) then mret 0
  else
    r ← try_except (spellingRate ← spellRateSlider ui; mret (Some spellingRate))
                   (mret None);
    match r with
    | None => mret 0
    | Some spellingRate =>
        let defaultRate := _getDefaultSpeechRate h in
        let offset := spellingRate - defaultRate in
        if _isOneCore ui then
          boost ← try_except (spellBoostSlider ui) (mret 0);
          let boost := clampPercent boost in
          mret (offset + boost)
        else mret offset
    end.

(** [_migrateOldConfigIfNeeded].  The key ["rateOffset"] of version 0.1.0
    is not in the config spec, so its value is the text of the ini file;
    the function gets it beside the section and returns both. *)
Definition _migrateOldConfigIfNeeded (h : Host) (rateOffset : option string)
  : Exc (Conf * option string) :=
  let conf := _getConf h in
  let synthName := _getActiveSynthName h in
  m ← _loadTypingRatesMap conf;
  st ← (match rateOffset with
        | Some raw =>
            if PyStr.truthy synthName && negb (bool_decide (is_Some (m !! synthName)))
            then
              offset ← try_except (int_of_str raw) (mret 0);
              let defaultRate := _getDefaultSpeechRate h in
              let maxRate := 100 in
              let absRate := defaultRate + offset in
              let absRate :=
                if absRate <? 0 then 0
                else if absRate >? maxRate then maxRate else absRate in
              let m := <[synthName := absRate]> m in
              conf ← _saveTypingRatesMap conf m;
              mret (conf, None, m)
            else mret (conf, rateOffset, m)
        | None => mret (conf, rateOffset, m)
        end);
  let '(conf, rateOffset, m) := st in
  legacyAbs ← try_except (mret (conf_get (typingRate conf) (-1))) (mret (-1));
  if PyStr.truthy synthName && negb (bool_decide (is_Some (m !! synthName)))
     && (legacyAbs >=? 0)
  then
    let maxRate := 100 in
    let legacyAbs := if legacyAbs >? maxRate then maxRate else legacyAbs in
    let m := <[synthName := legacyAbs]> m in
    conf ← _saveTypingRatesMap conf m;
    mret (conf, rateOffset)
  else mret (conf, rateOffset).

(** [json.loads] reads back what [json.dumps] wrote for the map [m]: the
    entries of [m], each once, in some order. *)
Definition dumps_loads (m : gmap string Z) : Prop :=
  exists (s : string) (l : list (string * Z)),
    json_dumps m = Ret s
    /\ json_loads s = Ret (JObject (map (fun kv => (kv.1, JInt kv.2)) l))
    /\ l ≡ₚ map_to_list m.

Definition boostsOf (p : Purpose) : MapSetting :=
  match p with
  | Typing => TypingBoosts
  | Spelling => SpellingBoosts
  end.

(** The scalar fallback key and the JSON key of a setting. *)
Definition scalarOf (s : MapSetting) (conf : Conf) : option Z :=
  match s with
  | TypingRates => typingRate conf
  | SpellingRates => spellingRate conf
  | TypingBoosts => oneCoreBoost conf
  | SpellingBoosts => oneCoreSpellBoost conf
  end.

Definition setJson (s : MapSetting) (text : string) (conf : Conf) : Conf :=
  match s with
  | TypingRates => set_typingRatesJson text conf
  | SpellingRates => set_spellingRatesJson text conf
  | TypingBoosts => set_oneCoreBoostJson text conf
  | SpellingBoosts => set_oneCoreSpellBoostJson text conf
  end.

(** The sliders and the test offset of a purpose. *)
Definition rateSliderOf (p : Purpose) (ui : Panel) : Exc Z :=
  match p with
  | Typing => rateSlider ui
  | Spelling => spellRateSlider ui
  end.

Definition boostSliderOf (p : Purpose) (ui : Panel) : Exc Z :=
  match p with
  | Typing => boostSlider ui
  | Spelling => spellBoostSlider ui
  end.

(** [try: v = int(slider.GetValue()) / except Exception: v = dflt] *)
Definition slider_or (slider : Exc Z) (dflt : Z) : Z :=
  match slider with
  | Ret v => v
  | Raise _ => dflt
  end.

(** The value [onSave] puts under a known synthesizer, setting by
    setting; boosts are written for the OneCore family only. *)
Definition savedValue (s : MapSetting) (h : Host) (ui : Panel) : option Z :=
  match s with
  | TypingRates => Some (clampRateForSave (slider_or (rateSlider ui) (-1)))
  | SpellingRates => Some (clampRateForSave (slider_or (spellRateSlider ui) (-1)))
  | TypingBoosts =>
      if _isOneCoreSynthName (_getActiveSynthName h)
      then Some (clampPercent (slider_or (boostSlider ui) 0)) else None
  | SpellingBoosts =>
      if _isOneCoreSynthName (_getActiveSynthName h)
      then Some (clampPercent (slider_or (spellBoostSlider ui) 0)) else None
  end.

Definition testOffsetFromUI (p : Purpose) (h : Host) (ui : Panel) : Exc Z :=
  match p with
  | Typing => _getTypingTestOffsetFromUI h ui
  | Spelling => _getSpellingTestOffsetFromUI h ui
  end.

End Settings.

(** ** Installing and removing the handlers *)

Module Patching.

(** A function object: one of NVDA's own, or one of the add-on's two
    replacements. *)
Inductive Handler : Type :=
| HostHandler (id : Z)
| patched_speakTypedCharacters
| patched_speakSpelling.

#[global] Instance Handler_eq_dec : EqDecision Handler := ltac:(solve_decision).

(** The attributes of the module [speech.speech] and of the package
    [speech] the add-on swaps ([None]: no such attribute), and the four
    globals that keep the originals ([None]: Python's [None]). *)
Record State : Type := mkState {
  mod_speakTypedCharacters : option Handler;
  pkg_speakTypedCharacters : option Handler;
  mod_speakSpelling : option Handler;
  pkg_speakSpelling : option Handler;
  _ORIG_speakTypedCharacters_mod : option Handler;
  _ORIG_speakTypedCharacters_pkg : option Handler;
  _ORIG_speakSpelling_mod : option Handler;
  _ORIG_speakSpelling_pkg : option Handler
}.

(** [if orig is not None: slot = patched] leaves an absent attribute
    absent. *)
Definition install (orig : option Handler) (slot : option Handler)
           (patched : Handler) : option Handler :=
  match orig with
  | Some _ => Some patched
  | None => slot
  end.

Definition _patchSpeech (s : State) : State :=
  if bool_decide (is_Some (_ORIG_speakTypedCharacters_mod s))
     || bool_decide (is_Some (_ORIG_speakTypedCharacters_pkg s))
     || bool_decide (is_Some (_ORIG_speakSpelling_mod s))
     || bool_decide (is_Some (_ORIG_speakSpelling_pkg s))
  then s
  else
    match mod_speakTypedCharacters s with
    | None => s      (* AttributeError: caught and logged, nothing assigned yet *)
    | Some typed =>
        let orig_typed_mod := Some typed in
        let orig_typed_pkg := pkg_speakTypedCharacters s in
        let orig_spell_mod := mod_speakSpelling s in
        let orig_spell_pkg := pkg_speakSpelling s in
        {| mod_speakTypedCharacters := Some patched_speakTypedCharacters;
           pkg_speakTypedCharacters :=
             install orig_typed_pkg (pkg_speakTypedCharacters s)
                     patched_speakTypedCharacters;
           mod_speakSpelling :=
             install orig_spell_mod (mod_speakSpelling s) patched_speakSpelling;
           pkg_speakSpelling :=
             install orig_spell_pkg (pkg_speakSpelling s) patched_speakSpelling;
           _ORIG_speakTypedCharacters_mod := orig_typed_mod;
           _ORIG_speakTypedCharacters_pkg := orig_typed_pkg;
           _ORIG_speakSpelling_mod := orig_spell_mod;
           _ORIG_speakSpelling_pkg := orig_spell_pkg |}
    end.

(** [if orig is not None: slot = orig] *)
Definition restore (orig : option Handler) (slot : option Handler) : option Handler :=
  match orig with
  | Some f => Some f
  | None => slot
  end.

Definition _unpatchSpeech (s : State) : State :=
  {| mod_speakTypedCharacters :=
       restore (_ORIG_speakTypedCharacters_mod s) (mod_speakTypedCharacters s);
     pkg_speakTypedCharacters :=
       restore (_ORIG_speakTypedCharacters_pkg s) (pkg_speakTypedCharacters s);
     mod_speakSpelling :=
       restore (_ORIG_speakSpelling_mod s) (mod_speakSpelling s);
     pkg_speakSpelling :=
       restore (_ORIG_speakSpelling_pkg s) (pkg_speakSpelling s);
     _ORIG_speakTypedCharacters_mod := None;
     _ORIG_speakTypedCharacters_pkg := None;
     _ORIG_speakSpelling_mod := None;
     _ORIG_speakSpelling_pkg := None |}.

(** What the plugin does to the handlers over its life: [__init__]
    patches, [terminate] unpatches. *)
Inductive Op : Type := Patch | Unpatch.

Definition apply_op (s : State) (o : Op) : State :=
  match o with
  | Patch => _patchSpeech s
  | Unpatch => _unpatchSpeech s
  end.

Definition run (ops : list Op) (s : State) : State := foldl apply_op s ops.

(** No original is kept: nothing is patched. *)
Definition clean (s : State) : Prop :=
  _ORIG_speakTypedCharacters_mod s = None
  /\ _ORIG_speakTypedCharacters_pkg s = None
  /\ _ORIG_speakSpelling_mod s = None
  /\ _ORIG_speakSpelling_pkg s = None.

(** The handler NVDA would call for a typed character, through the module
    and through the package. *)
Definition typedHandlers (s : State) : option Handler * option Handler :=
  (mod_speakTypedCharacters s, pkg_speakTypedCharacters s).

Definition spellingHandlers (s : State) : option Handler * option Handler :=
  (mod_speakSpelling s, pkg_speakSpelling s).

End Patching.

(** ** The replacement of [speakSpelling] *)

(** What a call of the replacement ends in: the add-on spoke the sequence,
    the original handler ran, or nothing happened. *)
Inductive SpellingOutcome : Type :=
| Spoke (seq : list SpeechItem)
| RanOriginal
| Nothing.

Section PatchedSpelling.

Context `{PyLib}.

(** [orig_pkg] and [orig_mod] are the globals [_ORIG_speakSpelling_pkg]
    and [_ORIG_speakSpelling_mod]: [None], or the original with what
    calling it on these arguments does. *)
Definition _patched_speakSpelling (h : Host) (orig_pkg orig_mod : option (Exc unit))
           (text : Text) (args : list Z) : Exc SpellingOutcome :=
  try_except
    (seq ← _speakSpellingWithSpellingRate h text args; mret (Spoke seq))
    (try_except
       (let orig := match orig_pkg with Some f => Some f | None => orig_mod end in
        match orig with
        | Some call => _ ← call; mret RanOriginal
        | None => mret Nothing
        end)
       (mret Nothing)).

End PatchedSpelling.

(** A [json.dumps] to go with [Sample.lib], and a panel. *)

Module SampleUI.

Definition entry_text (kv : string * Z) : string :=
  String Sample.dquote kv.1 +:+ String Sample.dquote ":" +:+ pretty kv.2.

Fixpoint join_entries (l : list (string * Z)) : string :=
  match l with
  | [] => ""
  | [kv] => entry_text kv
  | kv :: l' => entry_text kv +:+ "," +:+ join_entries l'
  end.

Definition dumps (m : gmap string Z) : Exc string :=
  Ret ("{" +:+ join_entries (map_to_list m) +:+ "}").

Definition lib : PyDumps := {| json_dumps := dumps |}.

Definition panel (rate boost : Z) : Panel :=
  {| enableCtrl := true; enableSpellCtrl := true; applyWordsCtrl := false;
     rateSlider := Ret rate; boostSlider := Ret boost;
     spellRateSlider := Ret rate; spellBoostSlider := Ret boost;
     _isOneCore := false |}.

Definition oneCorePanel (rate boost : Z) : Panel :=
  {| enableCtrl := true; enableSpellCtrl := true; applyWordsCtrl := false;
     rateSlider := Ret rate; boostSlider := Ret boost;
     spellRateSlider := Ret rate; spellBoostSlider := Ret boost;
     _isOneCore := true |}.

Definition fresh (name : string) (d : Z) : Host :=
  Sample.host (Sample.conf None None None None) name d.

Definition espeak72 : Host :=
  Sample.host (Sample.conf (Some (Sample.entry_json "espeak" "72")) (Some 90)
                           None (Some 30)) "espeak" 50.

Definition oneCore : Host :=
  Sample.host (Sample.conf None (Some 80)
                           (Some (Sample.entry_json "OneCore" "150")) None)
              "OneCore" 50.

Definition followDefault : Host :=
  Sample.host (Sample.conf (Some (Sample.entry_json "espeak" "-1")) None None None)
              "espeak" 50.

(** [espeak72] with other spelling settings. *)
Definition espeak72' : Host :=
  Sample.host
    {| enabled := None; enabledSpelling := None;
       typingRatesJson := Some (Sample.entry_json "espeak" "72");
       typingRate := Some 90;
       oneCoreBoostJson := None; oneCoreBoost := Some 30;
       spellingRatesJson := Some "[]"; spellingRate := Some 10;
       oneCoreSpellBoostJson := None; oneCoreSpellBoost := Some 5;
       applyToWords := Some true |} "espeak" 50.

Definition silentHost : Host :=
  {| _getConf := Sample.conf None None None None;
     _getActiveSynthName := "espeak";
     _getDefaultSpeechRate := 50;
     isTypingProtected := false;
     _isFocusEditable := true;
     speakTypedWords := OFF;
     speakTypedCharacters := OFF;
     logIO := true;
     getSpellingSpeech := Sample.spelling |}.

Definition speech : Patching.State :=
  {| Patching.mod_speakTypedCharacters := Some (Patching.HostHandler 1);
     Patching.pkg_speakTypedCharacters := Some (Patching.HostHandler 1);
     Patching.mod_speakSpelling := Some (Patching.HostHandler 2);
     Patching.pkg_speakSpelling := None;
     Patching._ORIG_speakTypedCharacters_mod := None;
     Patching._ORIG_speakTypedCharacters_pkg := None;
     Patching._ORIG_speakSpelling_mod := None;
     Patching._ORIG_speakSpelling_pkg := None |}.

End SampleUI.

(** * Running the model on examples *)

Example loads_espeak :
  Sample.loads (Sample.entry_json "espeak" "72") = Ret (JObject [("espeak", JInt 72)]).
Proof. vm_compute. reflexivity. Qed.

Example typing_offset_espeak :
  @_computeTypingRateOffset Sample.lib
    (Sample.host {| enabled := None; enabledSpelling := None;
                    typingRatesJson := Some (Sample.entry_json "espeak" "72");
                    typingRate := None;
                    oneCoreBoostJson := None; oneCoreBoost := None;
                    spellingRatesJson := None; spellingRate := None;
                    oneCoreSpellBoostJson := None; oneCoreSpellBoost := None;
                    applyToWords := None |} "espeak" 50) = Ret 22.
Proof. vm_compute. reflexivity. Qed.

Example type_cat_space :
  @typeKeys Sample.lib
    (map (pair (Sample.typingHost false (Some true))) [99; 97; 116; 32]) []
  = ([], [SpeakSpellingWithTypingRate [99]; SpeakSpellingWithTypingRate [97];
          SpeakSpellingWithTypingRate [116];
          LogIo [99; 97; 116]; SpeakTextWithTypingRate [99; 97; 116];
          SpeakSpellingWithTypingRate [32]]).
Proof. vm_compute. reflexivity. Qed.

Example perform_masked_echo :
  @perform Sample.lib
    (Sample.host (Sample.conf (Some (Sample.entry_json "espeak" "72")) None None None)
                 "espeak" 50)
    (SpeakSpellingWithTypingRate [42])
  = Ret (Speak [RateCommand (Some 22); Str [42];
                HostCommand "EndUtteranceCommand"; RateCommand None]).
Proof. vm_compute. reflexivity. Qed.

Example type_ab_backspace_space :
  @typeKeys Sample.lib
    (map (pair (Sample.typingHost false (Some true))) [97; 98; 8; 32]) []
  = ([], [SpeakSpellingWithTypingRate [97]; SpeakSpellingWithTypingRate [98];
          LogIo [97]; SpeakTextWithTypingRate [97];
          SpeakSpellingWithTypingRate [32]]).
Proof. vm_compute. reflexivity. Qed.

Example type_cat_space_core_path :
  @typeKeys Sample.lib
    (map (pair (Sample.typingHost false None)) [99; 97; 116; 32]) []
  = ([], [SpeakSpellingWithTypingRate [99]; SpeakSpellingWithTypingRate [97];
          SpeakSpellingWithTypingRate [116];
          LogIo [99; 97; 116]; CoreSpeakText [99; 97; 116];
          SpeakSpellingWithTypingRate [32]]).
Proof. vm_compute. reflexivity. Qed.

(** * Properties *)

Ltac exc_simpl :=
  cbn [mbind mret exc_mbind exc_mret bind try_except try_except_TypeError] in *.

Section RateStoreFacts.

Context `{PyLib}.

Lemma load_int_map_returns (raw : string) : returns (load_int_map raw).
Proof.
  unfold returns, load_int_map. exc_simpl.
  destruct (json_loads raw) as [[ | | | | | | ]|]; exc_simpl; eauto.
Qed.

Lemma load_int_map_raise (raw : string) (e : PyExc) :
  json_loads raw = Raise e -> load_int_map raw = Ret ∅.
Proof. intros E. unfold load_int_map. rewrite E. reflexivity. Qed.

Lemma load_int_map_not_dict (raw : string) (v : JValue) :
  json_loads raw = Ret v -> is_dict v = false -> load_int_map raw = Ret ∅.
Proof.
  intros E D. unfold load_int_map. rewrite E.
  destruct v; try discriminate D; reflexivity.
Qed.

Lemma loadSetting_unfold (s : MapSetting) (conf : Conf) :
  loadSetting s conf = load_int_map (rawSetting s conf).
Proof. destruct s; reflexivity. Qed.

Lemma storedRate_returns (p : Purpose) (conf : Conf) (name : string) :
  returns (storedRate p conf name).
Proof.
  destruct p; cbn [storedRate];
    unfold _getTypingRateForSynth, _getSpellingRateForSynth,
           _loadTypingRatesMap, _loadSpellingRatesMap;
    match goal with
    | |- context [load_int_map ?r] =>
        destruct (load_int_map_returns r) as [m ->]
    end; exc_simpl;
    destruct (entry_for m name); exc_simpl; unfold returns; eauto.
Qed.

Lemma storedBoost_returns (p : Purpose) (conf : Conf) (name : string) :
  returns (storedBoost p conf name).
Proof.
  destruct p; cbn [storedBoost];
    unfold _getBoostForSynth, _getSpellBoostForSynth,
           _loadBoostMap, _loadSpellBoostMap;
    match goal with
    | |- context [load_int_map ?r] =>
        destruct (load_int_map_returns r) as [m ->]
    end; exc_simpl;
    destruct (entry_for m name); exc_simpl; unfold returns; eauto.
Qed.

(** The rate of a per-synthesizer entry is the stored rate. *)
Lemma storedRate_entry (p : Purpose) (conf : Conf) (name : string)
      (m : gmap string Z) (r : Z) :
  loadSetting (ratesOf p) conf = Ret m ->
  name <> "" -> m !! name = Some r ->
  storedRate p conf name = Ret r.
Proof.
  intros L N E.
  assert (entry_for m name = Some r) as HE.
  { unfold entry_for. destruct name; [congruence | exact E]. }
  destruct p; cbn [storedRate loadSetting ratesOf] in *;
    unfold _getTypingRateForSynth, _getSpellingRateForSynth;
    rewrite L; exc_simpl; rewrite HE; reflexivity.
Qed.

Lemma clampPercent_range (v : Z) : 0 <= clampPercent v <= 100.
Proof.
  unfold clampPercent.
  destruct (Z.ltb_spec v 0); [lia |].
  destruct (Z.gtb_spec v 100); lia.
Qed.

Lemma clampPercent_id (v : Z) : 0 <= v <= 100 -> clampPercent v = v.
Proof.
  intros B. unfold clampPercent.
  destruct (Z.ltb_spec v 0); [lia |].
  destruct (Z.gtb_spec v 100); lia.
Qed.

Lemma clampPercent_low (v : Z) : v < 0 -> clampPercent v = 0.
Proof.
  intros B. unfold clampPercent. destruct (Z.ltb_spec v 0); [reflexivity | lia].
Qed.

Lemma clampPercent_high (v : Z) : 100 < v -> clampPercent v = 100.
Proof.
  intros B. unfold clampPercent.
  destruct (Z.ltb_spec v 0); [lia |].
  destruct (Z.gtb_spec v 100); lia.
Qed.

(** The offset of an enabled purpose, from the stored rate [r] and the
    stored boost [b]. *)
Lemma resolveOffset_enabled (p : Purpose) (h : Host) (r b : Z) :
  purposeEnabled p (_getConf h) = true ->
  storedRate p (_getConf h) (_getActiveSynthName h) = Ret r ->
  storedBoost p (_getConf h) (_getActiveSynthName h) = Ret b ->
  resolveOffset p h =
  Ret (baseOffset r (_getDefaultSpeechRate h)
       + (if _isOneCoreSynthName (_getActiveSynthName h)
          then clampPercent b else 0)).
Proof.
  intros E R B.
  destruct p; cbn [purposeEnabled storedRate storedBoost resolveOffset] in *;
    unfold _computeTypingRateOffset, _computeSpellingRateOffset;
    rewrite E; cbn [negb]; rewrite R; exc_simpl;
    destruct (_isOneCoreSynthName (_getActiveSynthName h));
    try rewrite B; exc_simpl; unfold baseOffset; f_equal; lia.
Qed.

End RateStoreFacts.

Module PyStrFacts.

Import PyStr.






End PyStrFacts.

Section OneCore.

Context `{PyLib}.



End OneCore.

Section RateClaims.

Context `{PyLib}.




(** C6, amended. The rate and the boost that offset resolution uses lie
    in 0..100: a stored rate or boost above 100 counts as 100, a stored
    boost below 0 counts as 0, and a stored rate below 0 stands for the
    default rate (clamped), not for 0. *)
Theorem used_values_clamped (p : Purpose) (h : Host) (r b : Z) :
  let conf := _getConf h in
  let synthName := _getActiveSynthName h in
  let d := _getDefaultSpeechRate h in
  purposeEnabled p conf = true ->
  storedRate p conf synthName = Ret r ->
  storedBoost p conf synthName = Ret b ->
  exists usedRate usedBoost,
    resolveOffset p h =
      Ret (usedRate - d
           + (if _isOneCoreSynthName synthName then usedBoost else 0))
    /\ 0 <= usedRate <= 100 /\ 0 <= usedBoost <= 100
    /\ (100 < r -> usedRate = 100)
    /\ (0 <= r <= 100 -> usedRate = r)
    /\ (r < 0 -> usedRate = clampPercent d)
    /\ (100 < b -> usedBoost = 100)
    /\ (0 <= b <= 100 -> usedBoost = b)
    /\ (b < 0 -> usedBoost = 0).
Proof.
  intros conf synthName d E R B.
  exists (clampPercent (if r <? 0 then d else r)), (clampPercent b).
  split; [exact (resolveOffset_enabled p h r b E R B) |].
  split; [apply clampPercent_range |].
  split; [apply clampPercent_range |].
  destruct (Z.ltb_spec r 0);
    repeat split; intros; try lia;
    auto using clampPercent_high, clampPercent_id, clampPercent_low.
Qed.

(** C10. A negative per-synthesizer rate, whatever its value, stands for
    "follow the default rate": with a default rate in 0..100 the offset
    before the boost is 0, so the offset is the boost term alone, and not
    [- defaultRate] as clamping the stored value to 0 would give. *)
Theorem negative_rate_follows_default (p : Purpose) (h : Host)
        (m : gmap string Z) (r : Z) :
  let conf := _getConf h in
  let synthName := _getActiveSynthName h in
  let d := _getDefaultSpeechRate h in
  purposeEnabled p conf = true ->
  loadSetting (ratesOf p) conf = Ret m ->
  synthName <> "" ->
  m !! synthName = Some r ->
  r < 0 ->
  0 <= d <= 100 ->
  baseOffset r d = d - d
  /\ exists b, storedBoost p conf synthName = Ret b
     /\ resolveOffset p h =
          Ret (0 + (if _isOneCoreSynthName synthName then clampPercent b else 0)).
Proof.
  intros conf synthName d E L N M Neg Bd.
  assert (baseOffset r d = 0) as B0.
  { unfold baseOffset. destruct (Z.ltb_spec r 0); [| lia].
    rewrite (clampPercent_id d Bd). lia. }
  split; [lia |].
  destruct (storedBoost_returns p conf synthName) as [b B].
  exists b. split; [exact B |].
  rewrite (resolveOffset_enabled p h r b E
             (storedRate_entry p conf synthName m r L N M) B).
  fold d. now rewrite B0.
Qed.

(** C9. The four map loaders always return: nothing is raised.  On an
    empty text, on a text [json.loads] rejects and on a document that is
    not a mapping they return the empty mapping. *)
Theorem loaders_never_raise (s : MapSetting) (conf : Conf) :
  (exists e, json_loads "" = Raise e) ->
  returns (loadSetting s conf)
  /\ (rawSetting s conf = ""
      \/ (exists e, json_loads (rawSetting s conf) = Raise e)
      \/ (exists v, json_loads (rawSetting s conf) = Ret v /\ is_dict v = false) ->
      loadSetting s conf = Ret ∅).
Proof.
  intros [e0 E0]. rewrite loadSetting_unfold. split.
  - apply load_int_map_returns.
  - intros [-> | [[e E] | (v & E & D)]].
    + exact (load_int_map_raise _ _ E0).
    + exact (load_int_map_raise _ _ E).
    + exact (load_int_map_not_dict _ _ E D).
Qed.

(** C7. The dispatch forwards the sequence unchanged when the offset is
    0; otherwise it forwards the rate change to the offset, then the
    sequence, then the rate reset, and nothing else.  This holds for
    [_speakWithTypingRate] on any sequence and for
    [_speakSpellingWithSpellingRate] on the spelling sequence of the
    host. *)
Theorem dispatch_wraps_sequence (h : Host) (seq : list SpeechItem)
        (text : Text) (args : list Z) (sseq : list SpeechItem) (ot os : Z) :
  _computeTypingRateOffset h = Ret ot ->
  _computeSpellingRateOffset h = Ret os ->
  try_except_TypeError (getSpellingSpeech h text args)
                       (getSpellingSpeech h text []) = Ret sseq ->
  (ot = 0 -> _speakWithTypingRate h seq = Ret seq)
  /\ (ot <> 0 ->
      _speakWithTypingRate h seq =
        Ret ([RateCommand (Some ot)] ++ seq ++ [RateCommand None]))
  /\ (os = 0 -> _speakSpellingWithSpellingRate h text args = Ret sseq)
  /\ (os <> 0 ->
      _speakSpellingWithSpellingRate h text args =
        Ret ([RateCommand (Some os)] ++ sseq ++ [RateCommand None])).
Proof.
  intros T S G.
  unfold _speakWithTypingRate, _speakSpellingWithSpellingRate.
  rewrite T, S. exc_simpl. rewrite G. exc_simpl.
  repeat split; intros Z0.
  - subst ot. reflexivity.
  - destruct (Z.eqb_spec ot 0); [contradiction | reflexivity].
  - subst os. reflexivity.
  - destruct (Z.eqb_spec os 0); [contradiction | reflexivity].
Qed.

End RateClaims.

Section TypedCharacterFacts.

Context `{PyLib}.

Lemma typeKeys_app (ks1 ks2 : list (Host * Z)) (buf : list Z) :
  typeKeys (ks1 ++ ks2) buf =
  (let r1 := typeKeys ks1 buf in
   let r2 := typeKeys ks2 r1.1 in
   (r2.1, r1.2 ++ r2.2)).
Proof.
  revert buf. induction ks1 as [|[h ch] ks1 IH]; intros buf.
  - cbn. now destruct (typeKeys ks2 buf).
  - cbn [app typeKeys].
    destruct (_patched_speakTypedCharacters h ch buf) as [b1 c1].
    rewrite IH. cbn zeta.
    destruct (typeKeys ks1 b1) as [b2 c2]. cbn [fst snd].
    destruct (typeKeys ks2 b2) as [b3 c3]. cbn [fst snd].
    now rewrite app_assoc.
Qed.

Lemma typeKeys_one (h : Host) (ch : Z) (buf : list Z) :
  typeKeys [(h, ch)] buf = _patched_speakTypedCharacters h ch buf.
Proof.
  cbn. destruct (_patched_speakTypedCharacters h ch buf) as [b c].
  now rewrite app_nil_r.
Qed.


Lemma isControl_leb (ch : Z) :
  (FIRST_NONCONTROL_CHAR <=? ch) = negb (isControl ch).
Proof. unfold isControl. apply Z.leb_antisym. Qed.

Lemma classify_word (ch : Z) :
  classify ch = WordConstituent <-> in_LMN (category0 ch) = true.
Proof.
  unfold classify. destruct (in_LMN (category0 ch)); [tauto |].
  destruct (ch =? 8); [split; discriminate |].
  destruct (ch =? 127); split; discriminate.
Qed.

Lemma classify_boundary (ch : Z) :
  classify ch = Boundary ->
  in_LMN (category0 ch) = false /\ (ch =? 8) = false /\ (ch =? 127) = false.
Proof.
  unfold classify. destruct (in_LMN (category0 ch)); [discriminate |].
  destruct (ch =? 8); [discriminate |].
  destruct (ch =? 127); [discriminate | auto].
Qed.


Lemma typed_char_calls_control (h : Host) (ch realChar : Z) :
  (FIRST_NONCONTROL_CHAR <=? ch) = false ->
  typed_char_calls h ch realChar = [].
Proof.
  intros P. unfold typed_char_calls. rewrite P.
  now rewrite andb_false_r.
Qed.




(** *** Under protection *)

(** The handler branches on the class of the character. *)
Lemma step_by_class (h : Host) (ch : Z) (buf : list Z) :
  _patched_speakTypedCharacters h ch buf =
  let realChar := if isTypingProtected h then PROTECTED_CHAR else ch in
  match classify ch with
  | WordConstituent => (buf ++ [realChar], typed_char_calls h ch realChar)
  | DeleteLast => (removelast buf, typed_char_calls h ch realChar)
  | DiscardSilently => (buf, [])
  | Boundary =>
      if (0 <? length buf)%nat
      then ([], typed_word_calls h (isTypingProtected h) buf
                  ++ typed_char_calls h ch realChar)
      else (buf, typed_char_calls h ch realChar)
  end.
Proof.
  unfold _patched_speakTypedCharacters, classify.
  destruct (in_LMN (category0 ch)); [reflexivity |].
  destruct (ch =? 8); [reflexivity |].
  destruct (ch =? 127); reflexivity.
Qed.








End TypedCharacterFacts.

Section TypedCharacterClaims.

Context `{PyLib}.



Lemma typed_word_calls_no_char (h : Host) (protected : bool) (w : Text) :
  Forall (fun c => isCharRequest c = false) (typed_word_calls h protected w).
Proof.
  unfold typed_word_calls. apply Forall_app. split.
  - destruct (logIO h); repeat constructor.
  - destruct (_ && _).
    + destruct (negb _); [| constructor].
      destruct (always_or_editable h _); repeat constructor.
    + destruct (_ && _); [| constructor].
      destruct (always_or_editable h _); repeat constructor.
Qed.



(** C8. The delete character U+007F leaves the buffer as it is and
    places no call, whatever the host answers. *)
Theorem delete_character_is_silent (h : Host) (buf : list Z) :
  _patched_speakTypedCharacters h 127 buf = (buf, []).
Proof. reflexivity. Qed.

End TypedCharacterClaims.

(** * The theorems at concrete inputs *)




Lemma used_values_clamped_witness :
  exists usedRate usedBoost,
    @resolveOffset Sample.lib Typing
      (Sample.host (Sample.conf (Some (Sample.entry_json "onecore" "150")) None
                                None (Some (-3))) "onecore" 50)
    = Ret (usedRate - 50 + usedBoost)
    /\ usedRate = 100 /\ usedBoost = 0.
Proof.
  destruct (@used_values_clamped Sample.lib Typing
              (Sample.host (Sample.conf (Some (Sample.entry_json "onecore" "150")) None
                                        None (Some (-3))) "onecore" 50) 150 (-3))
    as (usedRate & usedBoost & O & _ & _ & Hi & _ & _ & _ & _ & Lo).
  - reflexivity.
  - vm_compute. reflexivity.
  - vm_compute. reflexivity.
  - exists usedRate, usedBoost. split; [exact O |]. split; [apply Hi | apply Lo]; lia.
Defined.

Lemma negative_rate_follows_default_witness :
  exists b,
    @storedBoost Sample.lib Typing
      (Sample.conf (Some (Sample.entry_json "espeak" "-7")) (Some 90) None None)
      "espeak" = Ret b
    /\ @resolveOffset Sample.lib Typing
         (Sample.host (Sample.conf (Some (Sample.entry_json "espeak" "-7")) (Some 90)
                                   None None) "espeak" 50)
       = Ret (0 + 0).
Proof.
  apply (@negative_rate_follows_default Sample.lib Typing
           (Sample.host (Sample.conf (Some (Sample.entry_json "espeak" "-7")) (Some 90)
                                     None None) "espeak" 50)
           (@collect_ints Sample.lib [("espeak", JInt (-7))]) (-7)).
  - reflexivity.
  - reflexivity.
  - discriminate.
  - vm_compute. reflexivity.
  - lia.
  - cbn. lia.
Defined.

Lemma loaders_never_raise_witness :
  @loadSetting Sample.lib SpellingBoosts
    (Sample.conf None None (Some "[]") None) = Ret ∅
  /\ @loadSetting Sample.lib TypingRates
       (Sample.conf (Some "{oops") None None None) = Ret ∅
  /\ @loadSetting Sample.lib TypingRates (Sample.conf None None None None) = Ret ∅.
Proof.
  split; [| split].
  - apply (@loaders_never_raise Sample.lib SpellingBoosts
             (Sample.conf None None (Some "[]") None)).
    + exists JSONDecodeError. reflexivity.
    + right. right. exists (JArray []). split; reflexivity.
  - apply (@loaders_never_raise Sample.lib TypingRates
             (Sample.conf (Some "{oops") None None None)).
    + exists JSONDecodeError. reflexivity.
    + right. left. exists JSONDecodeError. reflexivity.
  - apply (@loaders_never_raise Sample.lib TypingRates
             (Sample.conf None None None None)).
    + exists JSONDecodeError. reflexivity.
    + left. reflexivity.
Defined.

Lemma dispatch_wraps_sequence_witness :
  @_speakWithTypingRate Sample.lib
    (Sample.host (Sample.conf (Some (Sample.entry_json "espeak" "72")) None None None)
                 "espeak" 50)
    [Str [104; 105]]
  = Ret [RateCommand (Some 22); Str [104; 105]; RateCommand None]
  /\ @_speakSpellingWithSpellingRate Sample.lib
       (Sample.host (Sample.conf (Some (Sample.entry_json "espeak" "72")) None None None)
                    "espeak" 50)
       [97] [7]
     = Ret [RateCommand (Some 22); Str [97]; HostCommand "EndUtteranceCommand";
            RateCommand None].
Proof.
  destruct (@dispatch_wraps_sequence Sample.lib
              (Sample.host (Sample.conf (Some (Sample.entry_json "espeak" "72"))
                                        None None None) "espeak" 50)
              [Str [104; 105]] [97] [7]
              [Str [97]; HostCommand "EndUtteranceCommand"] 22 22)
    as (_ & T & _ & S).
  - vm_compute. reflexivity.
  - vm_compute. reflexivity.
  - reflexivity.
  - split; [apply T | apply S]; lia.
Defined.



(** * Where the code departs from the specification's wording *)


(** C6 as worded: a stored rate below 0 is used as 0.  With the fallback
    rate -5, the default rate 50 and no boost, using 0 would give the
    offset [0 - 50]; the offset is 0. *)
Lemma negative_rate_is_not_zero :
  @storedRate Sample.lib Typing (Sample.conf None (Some (-5)) None None) "espeak"
  = Ret (-5)
  /\ _isOneCoreSynthName "espeak" = false
  /\ @resolveOffset Sample.lib Typing
       (Sample.host (Sample.conf None (Some (-5)) None None) "espeak" 50) = Ret 0
  /\ @resolveOffset Sample.lib Typing
       (Sample.host (Sample.conf None (Some (-5)) None None) "espeak" 50)
     <> Ret (0 - 50).
Proof.
  repeat split; try (vm_compute; reflexivity). discriminate.
Qed.


(** * Further properties of the rate engine *)

Section RateEngineMore.

Context `{PyLib}.

Lemma resolveOffset_returns (p : Purpose) (h : Host) :
  exists r b,
    storedRate p (_getConf h) (_getActiveSynthName h) = Ret r
    /\ storedBoost p (_getConf h) (_getActiveSynthName h) = Ret b
    /\ resolveOffset p h =
       Ret (if purposeEnabled p (_getConf h)
            then baseOffset r (_getDefaultSpeechRate h)
                 + (if _isOneCoreSynthName (_getActiveSynthName h)
                    then clampPercent b else 0)
            else 0).
Proof.
  destruct (storedRate_returns p (_getConf h) (_getActiveSynthName h)) as [r R].
  destruct (storedBoost_returns p (_getConf h) (_getActiveSynthName h)) as [b B].
  exists r, b. split; [exact R |]. split; [exact B |].
  destruct (purposeEnabled p (_getConf h)) eqn:E.
  - exact (resolveOffset_enabled p h r b E R B).
  - destruct p; cbn [purposeEnabled resolveOffset] in *;
      unfold _computeTypingRateOffset, _computeSpellingRateOffset;
      rewrite E; reflexivity.
Qed.

Lemma baseOffset_range (r d : Z) : 0 <= d <= 100 -> -100 <= baseOffset r d <= 100.
Proof.
  intros D. unfold baseOffset.
  pose proof (clampPercent_range (if r <? 0 then d else r)). lia.
Qed.

(** X1. With the default rate in 0..100 every offset is computed, without
    an exception, and lies in -100..200; for a synthesizer outside the
    OneCore family it lies in -100..100. *)
Theorem resolveOffset_bounds (p : Purpose) (h : Host) :
  0 <= _getDefaultSpeechRate h <= 100 ->
  exists o, resolveOffset p h = Ret o
            /\ -100 <= o <= 200
            /\ (_isOneCoreSynthName (_getActiveSynthName h) = false -> o <= 100).
Proof.
  intros D.
  destruct (resolveOffset_returns p h) as (r & b & _ & _ & O).
  pose proof (baseOffset_range r _ D) as Br.
  pose proof (clampPercent_range b) as Bb.
  eexists. split; [exact O |].
  destruct (purposeEnabled p (_getConf h));
    destruct (_isOneCoreSynthName (_getActiveSynthName h));
    split; try lia; intros; try discriminate; lia.
Qed.

(** X2. A configuration that stores no rate and no boost (the four JSON
    texts and the four scalars are absent) changes nothing: for every
    synthesizer, every setting of the flags and every default rate in
    0..100 both offsets are 0, and the typing dispatch forwards a sequence
    as it is. *)
Theorem nothing_stored_no_offset (p : Purpose) (h : Host) (seq : list SpeechItem) :
  (exists e, json_loads "" = Raise e) ->
  typingRatesJson (_getConf h) = None -> typingRate (_getConf h) = None ->
  oneCoreBoostJson (_getConf h) = None -> oneCoreBoost (_getConf h) = None ->
  spellingRatesJson (_getConf h) = None -> spellingRate (_getConf h) = None ->
  oneCoreSpellBoostJson (_getConf h) = None -> oneCoreSpellBoost (_getConf h) = None ->
  0 <= _getDefaultSpeechRate h <= 100 ->
  resolveOffset p h = Ret 0 /\ _speakWithTypingRate h seq = Ret seq.
Proof.
  intros [e E] TJ TR BJ BR SJ SR SBJ SBR D.
  assert (load_int_map "" = Ret ∅) as L by exact (load_int_map_raise _ _ E).
  assert (forall q, storedRate q (_getConf h) (_getActiveSynthName h) = Ret (-1)) as R.
  { intros q. destruct q; cbn [storedRate];
      unfold _getTypingRateForSynth, _getSpellingRateForSynth,
             _loadTypingRatesMap, _loadSpellingRatesMap;
      rewrite ?TJ, ?SJ, ?TR, ?SR; cbn [conf_get_raw conf_get PyStr.truthy];
      rewrite L; exc_simpl; unfold entry_for;
      destruct (PyStr.truthy _); rewrite ?lookup_empty; reflexivity. }
  assert (forall q, storedBoost q (_getConf h) (_getActiveSynthName h) = Ret 0) as B.
  { intros q. destruct q; cbn [storedBoost];
      unfold _getBoostForSynth, _getSpellBoostForSynth,
             _loadBoostMap, _loadSpellBoostMap;
      rewrite ?BJ, ?SBJ, ?BR, ?SBR; cbn [conf_get_raw conf_get PyStr.truthy];
      rewrite L; exc_simpl; unfold entry_for;
      destruct (PyStr.truthy _); rewrite ?lookup_empty; reflexivity. }
  assert (forall q, resolveOffset q h = Ret 0) as O.
  { intros q. destruct (resolveOffset_returns q h) as (r & b & R' & B' & O).
    rewrite R in R'. rewrite B in B'. injection R' as <-. injection B' as <-.
    rewrite O. destruct (purposeEnabled q (_getConf h)); [| reflexivity].
    unfold baseOffset. cbn [Z.ltb Z.compare].
    rewrite (clampPercent_id _ D).
    destruct (_isOneCoreSynthName _); f_equal; cbn; lia. }
  split; [apply O |].
  unfold _speakWithTypingRate. change (_computeTypingRateOffset h) with (resolveOffset Typing h).
  rewrite O. reflexivity.
Qed.

(** X3. The typing offset reads the typing settings only: two hosts that
    agree on the synthesizer, the default rate, the two flags and the four
    typing keys get the same typing offset, whatever their spelling keys
    hold.  Likewise the spelling offset reads [enabled] and the four
    spelling keys only. *)
Theorem offsets_read_their_own_settings (h1 h2 : Host) :
  _getActiveSynthName h1 = _getActiveSynthName h2 ->
  _getDefaultSpeechRate h1 = _getDefaultSpeechRate h2 ->
  enabled (_getConf h1) = enabled (_getConf h2) ->
  (enabledSpelling (_getConf h1) = enabledSpelling (_getConf h2) ->
   typingRatesJson (_getConf h1) = typingRatesJson (_getConf h2) ->
   typingRate (_getConf h1) = typingRate (_getConf h2) ->
   oneCoreBoostJson (_getConf h1) = oneCoreBoostJson (_getConf h2) ->
   oneCoreBoost (_getConf h1) = oneCoreBoost (_getConf h2) ->
   _computeTypingRateOffset h1 = _computeTypingRateOffset h2)
  /\ (spellingRatesJson (_getConf h1) = spellingRatesJson (_getConf h2) ->
      spellingRate (_getConf h1) = spellingRate (_getConf h2) ->
      oneCoreSpellBoostJson (_getConf h1) = oneCoreSpellBoostJson (_getConf h2) ->
      oneCoreSpellBoost (_getConf h1) = oneCoreSpellBoost (_getConf h2) ->
      _computeSpellingRateOffset h1 = _computeSpellingRateOffset h2).
Proof.
  intros N D E. split.
  - intros ES J R BJ B.
    unfold _computeTypingRateOffset, _getTypingRateForSynth, _getBoostForSynth,
           _loadTypingRatesMap, _loadBoostMap.
    now rewrite N, D, E, ES, J, R, BJ, B.
  - intros J R BJ B.
    unfold _computeSpellingRateOffset, _getSpellingRateForSynth,
           _getSpellBoostForSynth, _loadSpellingRatesMap, _loadSpellBoostMap.
    now rewrite N, D, E, J, R, BJ, B.
Qed.

(** The loop of the loaders, read entry by entry. *)
Lemma collect_ints_snoc (items : list (string * JValue)) (k : string) (v : JValue) :
  collect_ints (items ++ [(k, v)]) =
  match py_int v with
  | Ret n => <[k := n]> (collect_ints items)
  | Raise _ => collect_ints items
  end.
Proof.
  unfold collect_ints. rewrite foldl_app. cbn [foldl fst snd]. exc_simpl.
  destruct (py_int v); reflexivity.
Qed.

Lemma collect_ints_lookup (items : list (string * JValue)) (k : string) (n : Z) :
  NoDup items.*1 ->
  collect_ints items !! k = Some n <->
  exists v, (k, v) ∈ items /\ py_int v = Ret n.
Proof.
  induction items as [|[k' v'] items IH] using rev_ind; intros ND.
  - unfold collect_ints. cbn. rewrite lookup_empty. split; [discriminate |].
    intros (v & I & _). inversion I.
  - rewrite fmap_app in ND. apply NoDup_app in ND as (ND & Fresh & _).
    specialize (IH ND). rewrite collect_ints_snoc.
    assert (forall v, (k', v) ∈ items -> False) as NotIn.
    { intros v I. apply (Fresh k').
      - apply list_elem_of_fmap. exists (k', v). auto.
      - cbn. left. }
    destruct (decide (k = k')) as [-> | Ne].
    + destruct (py_int v') as [n' | e] eqn:P.
      * rewrite lookup_insert_eq. split.
        -- intros [= ->]. exists v'. split; [| exact P].
           apply elem_of_app. right. left.
        -- intros (v & I & Pv). apply elem_of_app in I as [I | I].
           ++ destruct (NotIn v I).
           ++ apply list_elem_of_singleton in I. injection I as ->. congruence.
      * rewrite IH. split.
        -- intros (v & I & _). destruct (NotIn v I).
        -- intros (v & I & Pv). apply elem_of_app in I as [I | I].
           ++ destruct (NotIn v I).
           ++ apply list_elem_of_singleton in I. injection I as ->. congruence.
    + assert (collect_ints items !! k = Some n <->
              exists v, (k, v) ∈ items ++ [(k', v')] /\ py_int v = Ret n) as G.
      { rewrite IH. split.
        - intros (v & I & Pv). exists v. split; [| exact Pv].
          apply elem_of_app. now left.
        - intros (v & I & Pv). exists v. split; [| exact Pv].
          apply elem_of_app in I as [I | I]; [exact I |].
          apply list_elem_of_singleton in I. congruence. }
      destruct (py_int v'); [rewrite lookup_insert_ne by congruence |]; exact G.
Qed.

(** X4. From a JSON object the loaders keep exactly the entries whose
    value [int] accepts, with the integer it yields (a float truncated, a
    boolean as 0 or 1); entries whose value is null, an array, an object or
    an unreadable string are dropped, and the others remain. *)
Theorem loaders_keep_integer_entries
        (s : MapSetting) (conf : Conf) (items : list (string * JValue)) :
  json_loads (rawSetting s conf) = Ret (JObject items) ->
  NoDup items.*1 ->
  exists m, loadSetting s conf = Ret m
            /\ forall k n, m !! k = Some n <->
                           exists v, (k, v) ∈ items /\ py_int v = Ret n.
Proof.
  intros L ND. exists (collect_ints items). split.
  - rewrite loadSetting_unfold. unfold load_int_map. rewrite L. reflexivity.
  - intros k n. now apply collect_ints_lookup.
Qed.

(** X5. Without a per-synthesizer entry the scalar fallback is what is
    stored for a synthesizer: for the unknown synthesizer (empty name) even
    when the map has an entry under the empty name, and for a name the map
    does not hold.  An absent rate scalar counts as -1, an absent boost
    scalar as 0. *)
Theorem scalar_fallback_without_entry
        (p : Purpose) (conf : Conf) (name : string) (m mb : gmap string Z) :
  loadSetting (ratesOf p) conf = Ret m ->
  loadSetting (match p with Typing => TypingBoosts | Spelling => SpellingBoosts end)
              conf = Ret mb ->
  (name = "" \/ (m !! name = None /\ mb !! name = None)) ->
  storedRate p conf name =
    Ret (conf_get (match p with
                   | Typing => typingRate conf
                   | Spelling => spellingRate conf
                   end) (-1))
  /\ storedBoost p conf name =
       Ret (conf_get (match p with
                      | Typing => oneCoreBoost conf
                      | Spelling => oneCoreSpellBoost conf
                      end) 0).
Proof.
  intros L Lb N.
  assert (entry_for m name = None /\ entry_for mb name = None) as [E Eb].
  { unfold entry_for. destruct N as [-> | [N Nb]]; [split; reflexivity |].
    destruct (PyStr.truthy name); auto. }
  destruct p; cbn [storedRate storedBoost loadSetting ratesOf] in *;
    unfold _getTypingRateForSynth, _getSpellingRateForSynth,
           _getBoostForSynth, _getSpellBoostForSynth;
    rewrite L, Lb; exc_simpl; rewrite E, Eb; split; reflexivity.
Qed.


End RateEngineMore.


(** * Further properties of the typed-character handler *)

Section TypedCharacterMore.

Context `{PyLib}.

Lemma removelast_snoc {A : Type} (l : list A) (x : A) : removelast (l ++ [x]) = l.
Proof.
  induction l as [|y l IH]; [reflexivity |].
  cbn. rewrite IH. destruct l; reflexivity.
Qed.

Lemma Forall_removelast {A : Type} (P : A -> Prop) (l : list A) :
  Forall P l -> Forall P (removelast l).
Proof.
  induction 1 as [|x l Px F IH]; [constructor |].
  cbn. destruct l; [constructor |]. constructor; assumption.
Qed.


(** X7. The buffer holds word characters only: if every buffered character
    is a letter, mark or number or the mask, this is still so after any run
    of keystrokes, protected or not.  A boundary character leaves the
    buffer empty. *)
Theorem buffer_holds_word_characters (keys : list (Host * Z)) (buf : list Z) :
  Forall (fun c => in_LMN (category0 c) = true \/ c = PROTECTED_CHAR) buf ->
  Forall (fun c => in_LMN (category0 c) = true \/ c = PROTECTED_CHAR)
         (typeKeys keys buf).1
  /\ forall h b, classify b = Boundary ->
                 (_patched_speakTypedCharacters h b buf).1 = [].
Proof.
  intros B. split.
  - revert buf B. induction keys as [|[h ch] keys IH]; intros buf B; [exact B |].
    cbn [typeKeys].
    assert (Forall (fun c => in_LMN (category0 c) = true \/ c = PROTECTED_CHAR)
                   (_patched_speakTypedCharacters h ch buf).1) as B1.
    { rewrite step_by_class. cbv zeta.
      destruct (classify ch) eqn:C; cbn [fst].
      - apply Forall_app. split; [exact B |].
        apply classify_word in C.
        apply Forall_cons. split; [| constructor].
        destruct (isTypingProtected h); [now right | now left].
      - now apply Forall_removelast.
      - exact B.
      - destruct (0 <? length buf)%nat; [constructor | exact B]. }
    destruct (_patched_speakTypedCharacters h ch buf) as [b1 c1]. cbn [fst] in B1.
    specialize (IH b1 B1). destruct (typeKeys keys b1). exact IH.
  - intros h b C. rewrite step_by_class, C. cbv zeta.
    destruct buf; reflexivity.
Qed.


(** X9. Backspace is silent and takes back one buffered character: after
    a letter, mark or number and a backspace the buffer is what it was,
    protected or not; on an empty buffer backspace does nothing. *)
Theorem backspace_takes_back_one_character (h h' : Host) (c : Z) (buf : list Z) :
  classify c = WordConstituent ->
  (typeKeys [(h, c); (h', 8)] buf).1 = buf
  /\ (_patched_speakTypedCharacters h' 8 buf).2 = []
  /\ _patched_speakTypedCharacters h' 8 [] = ([], []).
Proof.
  intros C.
  assert (forall g l, _patched_speakTypedCharacters g 8 l = (removelast l, [])) as BS.
  { intros g l. unfold _patched_speakTypedCharacters.
    change (in_LMN (category0 8)) with false. cbn [Z.eqb Pos.eqb].
    rewrite typed_char_calls_control; reflexivity. }
  split; [| split].
  - change [(h, c); (h', 8)] with ([(h, c)] ++ [(h', 8)]).
    rewrite typeKeys_app. cbv zeta. rewrite !typeKeys_one, BS. cbn [fst].
    rewrite step_by_class, C. cbn [fst]. apply removelast_snoc.
  - now rewrite BS.
  - now rewrite BS.
Qed.

(** X10. Nothing is spoken when both echo modes are off: the only calls a
    run of keystrokes places are log lines. *)
Theorem echo_off_is_silent (keys : list (Host * Z)) (buf : list Z) :
  Forall (fun k => speakTypedWords k.1 = OFF /\ speakTypedCharacters k.1 = OFF) keys ->
  Forall (fun c => exists w, c = LogIo w) (typeKeys keys buf).2.
Proof.
  intros F. revert buf.
  induction F as [|[h ch] keys [W C] F IH]; intros buf; [constructor |].
  cbn [fst] in W, C. cbn [typeKeys].
  assert (forall r, typed_char_calls h ch r = []) as NoEcho.
  { intros r. unfold typed_char_calls. now rewrite C. }
  assert (forall p w, Forall (fun c => exists w', c = LogIo w')
                             (typed_word_calls h p w)) as NoWord.
  { intros p w. unfold typed_word_calls. rewrite W. cbn [bool_decide negb andb].
    apply Forall_app. split.
    - destruct (logIO h); repeat constructor. eauto.
    - destruct (negb p && _); constructor. }
  assert (Forall (fun c => exists w, c = LogIo w)
                 (_patched_speakTypedCharacters h ch buf).2) as S.
  { rewrite step_by_class. cbv zeta. rewrite !NoEcho.
    destruct (classify ch); cbn [snd]; try constructor.
    destruct (0 <? length buf)%nat; cbn [snd]; [| constructor].
    rewrite app_nil_r. apply NoWord. }
  destruct (_patched_speakTypedCharacters h ch buf) as [b1 c1]. cbn [snd] in S.
  specialize (IH b1). destruct (typeKeys keys b1) as [b2 c2]. cbn [snd] in *.
  apply Forall_app. auto.
Qed.

(** X11. A control character (below U+0020) is never echoed, whatever the
    echo modes and the protection are: its keystroke places no character
    request. *)
Theorem control_character_is_not_echoed (h : Host) (ch : Z) (buf : list Z) :
  isControl ch = true ->
  Forall (fun c => isCharRequest c = false) (_patched_speakTypedCharacters h ch buf).2.
Proof.
  intros K.
  assert (forall r, typed_char_calls h ch r = []) as NoEcho.
  { intros r. apply typed_char_calls_control. now rewrite isControl_leb, K. }
  rewrite step_by_class. cbv zeta. rewrite !NoEcho.
  destruct (classify ch); cbn [snd]; try constructor.
  destruct (0 <? length buf)%nat; cbn [snd]; [| constructor].
  rewrite app_nil_r. apply typed_word_calls_no_char.
Qed.


End TypedCharacterMore.


(** * Installing and removing the handlers *)

Module PatchingFacts.

Import Patching.

Lemma unpatch_clean (s : State) : clean s -> _unpatchSpeech s = s.
Proof.
  destruct s. unfold clean. cbn. intros (-> & -> & -> & ->). reflexivity.
Qed.

Lemma patch_not_clean (s : State) : ~ clean s -> _patchSpeech s = s.
Proof.
  intros N. unfold _patchSpeech.
  destruct (_ORIG_speakTypedCharacters_mod s) eqn:A; [reflexivity |].
  destruct (_ORIG_speakTypedCharacters_pkg s) eqn:B; [reflexivity |].
  destruct (_ORIG_speakSpelling_mod s) eqn:C; [reflexivity |].
  destruct (_ORIG_speakSpelling_pkg s) eqn:D; [reflexivity |].
  destruct N. unfold clean. auto.
Qed.

Lemma unpatch_patch (s : State) : clean s -> _unpatchSpeech (_patchSpeech s) = s.
Proof.
  destruct s as [tm tp sm sp a b c d]. unfold clean. cbn.
  intros (-> & -> & -> & ->). unfold _patchSpeech. cbn.
  destruct tm; [| reflexivity].
  destruct tp, sm, sp; reflexivity.
Qed.

Lemma patch_patch (s : State) : _patchSpeech (_patchSpeech s) = _patchSpeech s.
Proof.
  destruct s as [tm tp sm sp [a|] [b|] [c|] [d|]];
    try reflexivity.
  unfold _patchSpeech at 2. cbn.
  destruct tm; reflexivity.
Qed.

Lemma unpatch_is_clean (s : State) : clean (_unpatchSpeech s).
Proof. unfold clean. cbn. auto. Qed.

(** X13. Removing the handlers undoes installing them: from a state that
    keeps no original, patch and then unpatch gives back the very state,
    with NVDA's four handlers (or their absence) as they were. *)
Theorem unpatch_undoes_patch (s : State) :
  clean s -> _unpatchSpeech (_patchSpeech s) = s.
Proof. exact (unpatch_patch s). Qed.

(** X14. Installing twice is installing once, in every state; in
    particular the second call never records the add-on's replacement as
    the original to restore. *)
Theorem patch_is_idempotent (s : State) :
  _patchSpeech (_patchSpeech s) = _patchSpeech s.
Proof. exact (patch_patch s). Qed.

(** X15. Through any series of patches and unpatches that starts with no
    original kept, the state is either the initial one or the patched
    initial one, and right after an unpatch it is the initial one: NVDA's
    handlers are never lost. *)
Theorem handlers_are_never_lost (ops : list Op) (s : State) :
  clean s ->
  (run ops s = s \/ run ops s = _patchSpeech s)
  /\ run (ops ++ [Unpatch]) s = s.
Proof.
  intros C.
  assert (run ops s = s \/ run ops s = _patchSpeech s) as R.
  { induction ops as [|o ops IH] using rev_ind; [now left |].
    unfold run in *. rewrite foldl_app. cbn [foldl].
    destruct IH as [-> | ->]; destruct o; cbn [apply_op].
    - now right.
    - left. now apply unpatch_clean.
    - right. apply patch_patch.
    - left. now apply unpatch_patch. }
  split; [exact R |].
  unfold run in *. rewrite foldl_app. cbn [foldl apply_op].
  destruct R as [-> | ->]; [now apply unpatch_clean | now apply unpatch_patch].
Qed.

(** X16. When nothing is patched yet and [speech.speech] has a
    [speakTypedCharacters], patching puts the replacement wherever NVDA had
    a handler and creates no attribute that was absent; when
    [speakTypedCharacters] is missing from [speech.speech], patching
    changes nothing at all, the spelling handlers included. *)
Theorem patch_replaces_present_handlers (s : State) :
  clean s ->
  (forall f, mod_speakTypedCharacters s = Some f ->
     typedHandlers (_patchSpeech s)
       = (Some patched_speakTypedCharacters,
          (fun _ => patched_speakTypedCharacters) <$> pkg_speakTypedCharacters s)
     /\ spellingHandlers (_patchSpeech s)
       = ((fun _ => patched_speakSpelling) <$> mod_speakSpelling s,
          (fun _ => patched_speakSpelling) <$> pkg_speakSpelling s))
  /\ (mod_speakTypedCharacters s = None -> _patchSpeech s = s).
Proof.
  destruct s as [tm tp sm sp a b c d]. unfold clean. cbn.
  intros (-> & -> & -> & ->). split.
  - intros f ->. unfold _patchSpeech, typedHandlers, spellingHandlers. cbn.
    destruct tp, sm, sp; split; reflexivity.
  - intros ->. reflexivity.
Qed.

End PatchingFacts.


(** * Saving, previewing and migrating the settings *)

Section SettingsFacts.

Context `{PyLib} `{PyDumps}.

Lemma conf_get_raw_Some (s : string) : conf_get_raw (Some s) = s.
Proof. unfold conf_get_raw. cbn. destruct s; reflexivity. Qed.

Lemma truthy_nonempty (s : string) : s <> "" <-> PyStr.truthy s = true.
Proof. destruct s; cbn; split; congruence. Qed.

Lemma rawSetting_setJson_same (s : MapSetting) (text : string) (conf : Conf) :
  rawSetting s (setJson s text conf) = text.
Proof. destruct s; cbn [setJson rawSetting]; apply conf_get_raw_Some. Qed.

Lemma rawSetting_setJson_other (s s' : MapSetting) (text : string) (conf : Conf) :
  s <> s' -> rawSetting s' (setJson s text conf) = rawSetting s' conf.
Proof. destruct s, s'; intros N; try reflexivity; destruct N; reflexivity. Qed.

Lemma scalarOf_setJson (s s' : MapSetting) (text : string) (conf : Conf) :
  scalarOf s' (setJson s text conf) = scalarOf s' conf.
Proof. destruct s, s'; reflexivity. Qed.

Lemma flags_setJson (s : MapSetting) (text : string) (conf : Conf) :
  enabled (setJson s text conf) = enabled conf
  /\ enabledSpelling (setJson s text conf) = enabledSpelling conf
  /\ applyToWords (setJson s text conf) = applyToWords conf.
Proof. destruct s; auto. Qed.

(** What [json.loads] makes of the text [json.dumps] wrote. *)
Lemma collect_ints_of_entries (l : list (string * Z)) (m : gmap string Z) :
  l ≡ₚ map_to_list m ->
  collect_ints (map (fun kv => (kv.1, JInt kv.2)) l) = m.
Proof.
  intros P.
  assert (NoDup (map (fun kv : string * Z => (kv.1, JInt kv.2)) l).*1) as ND.
  { assert ((map (fun kv : string * Z => (kv.1, JInt kv.2)) l).*1 = l.*1) as ->.
    { clear P. induction l as [|kv l IH]; [reflexivity |]. cbn. now rewrite IH. }
    rewrite P. apply NoDup_fst_map_to_list. }
  apply map_eq. intros k. apply option_eq. intros n.
  rewrite (collect_ints_lookup _ k n ND), <- elem_of_map_to_list, <- P.
  split.
  - intros (v & I & E). apply list_elem_of_fmap in I as ([k' n'] & [= -> ->] & I).
    cbn in E. injection E as <-. exact I.
  - intros I. exists (JInt n). split; [| reflexivity].
    apply list_elem_of_fmap. exists (k, n). auto.
Qed.

Lemma load_what_was_dumped (m : gmap string Z) :
  dumps_loads m -> exists s, json_dumps m = Ret s /\ load_int_map s = Ret m.
Proof.
  intros (s & l & D & L & P). exists s. split; [exact D |].
  unfold load_int_map. rewrite L. exc_simpl.
  now rewrite (collect_ints_of_entries l m P).
Qed.

Lemma saveSetting_spec (s : MapSetting) (conf : Conf) (m : gmap string Z) :
  exists text, saveSetting s conf m = Ret (setJson s text conf)
               /\ (forall t, json_dumps m = Ret t -> text = t).
Proof.
  destruct (json_dumps m) as [t | e] eqn:D.
  - exists t. split; [| congruence].
    destruct s; cbn [saveSetting setJson];
      unfold _saveTypingRatesMap, _saveSpellingRatesMap, _saveBoostMap,
             _saveSpellBoostMap; rewrite D; reflexivity.
  - exists "". split; [| congruence].
    destruct s; cbn [saveSetting setJson];
      unfold _saveTypingRatesMap, _saveSpellingRatesMap, _saveBoostMap,
             _saveSpellBoostMap; rewrite D; reflexivity.
Qed.

(** The block of [onSave] for a known synthesizer: it rewrites the JSON
    key of the setting and nothing else. *)
Lemma store_for_synth_known (s : MapSetting) (name : string) (v : Z) (conf : Conf) :
  name <> "" ->
  exists m text,
    loadSetting s conf = Ret m
    /\ store_for_synth s name v conf = Ret (setJson s text conf)
    /\ (dumps_loads (<[name := v]> m) ->
        loadSetting s (setJson s text conf) = Ret (<[name := v]> m)).
Proof.
  intros N. apply truthy_nonempty in N.
  destruct (load_int_map_returns (rawSetting s conf)) as [m L].
  rewrite <- loadSetting_unfold in L.
  destruct (saveSetting_spec s conf (<[name := v]> m)) as (text & S & T).
  exists m, text. split; [exact L |]. split.
  - unfold store_for_synth. rewrite L. exc_simpl. now rewrite N.
  - intros DL. destruct (load_what_was_dumped _ DL) as (t & D & LL).
    now rewrite (T t D), loadSetting_unfold, rawSetting_setJson_same.
Qed.

Lemma storedRate_from (p : Purpose) (conf : Conf) (name : string) (m : gmap string Z) :
  loadSetting (ratesOf p) conf = Ret m ->
  storedRate p conf name =
  Ret (match entry_for m name with
       | Some v => v
       | None => conf_get (scalarOf (ratesOf p) conf) (-1)
       end).
Proof.
  intros L.
  destruct p; cbn [storedRate loadSetting ratesOf scalarOf] in *;
    unfold _getTypingRateForSynth, _getSpellingRateForSynth;
    rewrite L; exc_simpl; destruct (entry_for m name); reflexivity.
Qed.

Lemma storedBoost_from (p : Purpose) (conf : Conf) (name : string) (m : gmap string Z) :
  loadSetting (boostsOf p) conf = Ret m ->
  storedBoost p conf name =
  Ret (match entry_for m name with
       | Some v => v
       | None => conf_get (scalarOf (boostsOf p) conf) 0
       end).
Proof.
  intros L.
  destruct p; cbn [storedBoost loadSetting boostsOf scalarOf] in *;
    unfold _getBoostForSynth, _getSpellBoostForSynth;
    rewrite L; exc_simpl; destruct (entry_for m name); reflexivity.
Qed.

Lemma loadSetting_same_raw (s : MapSetting) (c1 c2 : Conf) :
  rawSetting s c1 = rawSetting s c2 -> loadSetting s c1 = loadSetting s c2.
Proof. intros E. now rewrite !loadSetting_unfold, E. Qed.

End SettingsFacts.

Ltac bind_simpl := cbn [mbind mret exc_mbind exc_mret bind].

Section OnSaveFacts.

Context `{PyLib} `{PyDumps}.

Lemma try_except_default (slider : Exc Z) (dflt : Z) :
  try_except slider (mret dflt) = Ret (slider_or slider dflt).
Proof. destruct slider; reflexivity. Qed.

Lemma rawSetting_flags (s : MapSetting) (a b c : bool) (conf : Conf) :
  rawSetting s (set_applyToWords c (set_enabledSpelling b (set_enabled a conf)))
  = rawSetting s conf.
Proof. destruct s; reflexivity. Qed.

Lemma scalarOf_flags (s : MapSetting) (a b c : bool) (conf : Conf) :
  scalarOf s (set_applyToWords c (set_enabledSpelling b (set_enabled a conf)))
  = scalarOf s conf.
Proof. destruct s; reflexivity. Qed.

(** One block of [onSave], run or skipped, seen from any setting. *)
Lemma store_block (s : MapSetting) (name : string) (ov : option Z) (conf : Conf) :
  name <> "" ->
  exists conf',
    match ov with
    | Some v => store_for_synth s name v conf
    | None => mret conf
    end = Ret conf'
    /\ enabled conf' = enabled conf
    /\ enabledSpelling conf' = enabledSpelling conf
    /\ applyToWords conf' = applyToWords conf
    /\ (forall s', scalarOf s' conf' = scalarOf s' conf)
    /\ (forall s', s' <> s -> rawSetting s' conf' = rawSetting s' conf)
    /\ (forall m, loadSetting s conf = Ret m ->
          match ov with
          | Some v => dumps_loads (<[name := v]> m) ->
                      loadSetting s conf' = Ret (<[name := v]> m)
          | None => loadSetting s conf' = Ret m
          end).
Proof.
  intros N. destruct ov as [v |].
  - destruct (store_for_synth_known s name v conf N) as (m0 & text & L & S & R).
    exists (setJson s text conf). split; [exact S |].
    destruct (flags_setJson s text conf) as (F1 & F2 & F3).
    repeat (split; [assumption |]).
    split; [intros s'; apply scalarOf_setJson |].
    split; [intros s' Ne; apply rawSetting_setJson_other; congruence |].
    intros m L'. assert (m = m0) as -> by congruence. exact R.
  - exists conf. repeat (split; [reflexivity |]). intros m L. exact L.
Qed.

(** [onSave] for a known synthesizer, setting by setting. *)
Lemma onSave_known (h : Host) (ui : Panel) :
  _getActiveSynthName h <> "" ->
  exists conf',
    onSave h ui = Ret conf'
    /\ enabled conf' = Some (enableCtrl ui)
    /\ enabledSpelling conf' = Some (enableSpellCtrl ui)
    /\ applyToWords conf' = Some (applyWordsCtrl ui)
    /\ (forall s, scalarOf s conf' = scalarOf s (_getConf h))
    /\ (forall s m,
          loadSetting s (_getConf h) = Ret m ->
          match savedValue s h ui with
          | Some v => dumps_loads (<[_getActiveSynthName h := v]> m) ->
                      loadSetting s conf' = Ret (<[_getActiveSynthName h := v]> m)
          | None => loadSetting s conf' = Ret m
          end).
Proof.
  intros N. set (name := _getActiveSynthName h) in *.
  set (c0 := set_applyToWords (applyWordsCtrl ui)
               (set_enabledSpelling (enableSpellCtrl ui)
                  (set_enabled (enableCtrl ui) (_getConf h)))).
  destruct (store_block TypingRates name (savedValue TypingRates h ui) c0 N)
    as (c1 & S1 & E1 & ES1 & A1 & Sc1 & Raw1 & L1).
  destruct (store_block TypingBoosts name (savedValue TypingBoosts h ui) c1 N)
    as (c2 & S2 & E2 & ES2 & A2 & Sc2 & Raw2 & L2).
  destruct (store_block SpellingRates name (savedValue SpellingRates h ui) c2 N)
    as (c3 & S3 & E3 & ES3 & A3 & Sc3 & Raw3 & L3).
  destruct (store_block SpellingBoosts name (savedValue SpellingBoosts h ui) c3 N)
    as (c4 & S4 & E4 & ES4 & A4 & Sc4 & Raw4 & L4).
  exists c4. split.
  { cbn [savedValue] in S1, S2, S3, S4. subst c0 name.
    unfold onSave. cbv zeta.
    rewrite (try_except_default (rateSlider ui) (-1)),
            (try_except_default (spellRateSlider ui) (-1)),
            (try_except_default (boostSlider ui) 0),
            (try_except_default (spellBoostSlider ui) 0).
    bind_simpl. rewrite S1. bind_simpl.
    destruct (_isOneCoreSynthName (_getActiveSynthName h)).
    - bind_simpl. rewrite S2. bind_simpl. rewrite S3. bind_simpl.
      now rewrite S4.
    - bind_simpl. injection S2 as <-. rewrite S3. bind_simpl. exact S4. }
  split; [now rewrite E4, E3, E2, E1 |].
  split; [now rewrite ES4, ES3, ES2, ES1 |].
  split; [now rewrite A4, A3, A2, A1 |].
  split.
  { intros s. rewrite Sc4, Sc3, Sc2, Sc1. apply scalarOf_flags. }
  intros s m L.
  assert (forall s', rawSetting s' c0 = rawSetting s' (_getConf h)) as Raw0.
  { intros s'. apply rawSetting_flags. }
  assert (loadSetting s c0 = Ret m) as L0.
  { rewrite <- L. apply loadSetting_same_raw, Raw0. }
  destruct s.
  - specialize (L1 m L0).
    assert (loadSetting TypingRates c4 = loadSetting TypingRates c1) as ->.
    { apply loadSetting_same_raw.
      rewrite Raw4, Raw3, Raw2 by discriminate. reflexivity. }
    exact L1.
  - assert (loadSetting SpellingRates c2 = Ret m) as L2'.
    { rewrite <- L0. apply loadSetting_same_raw.
      rewrite Raw2, Raw1 by discriminate. reflexivity. }
    specialize (L3 m L2').
    assert (loadSetting SpellingRates c4 = loadSetting SpellingRates c3) as ->.
    { apply loadSetting_same_raw. rewrite Raw4 by discriminate. reflexivity. }
    exact L3.
  - assert (loadSetting TypingBoosts c1 = Ret m) as L1'.
    { rewrite <- L0. apply loadSetting_same_raw.
      rewrite Raw1 by discriminate. reflexivity. }
    specialize (L2 m L1').
    assert (loadSetting TypingBoosts c4 = loadSetting TypingBoosts c2) as ->.
    { apply loadSetting_same_raw.
      rewrite Raw4, Raw3 by discriminate. reflexivity. }
    exact L2.
  - assert (loadSetting SpellingBoosts c3 = Ret m) as L3'.
    { rewrite <- L0. apply loadSetting_same_raw.
      rewrite Raw3, Raw2, Raw1 by discriminate. reflexivity. }
    exact (L4 m L3').
Qed.

End OnSaveFacts.

Section SettingsProperties.

Context `{PyLib} `{PyDumps}.

Lemma entry_for_insert (m : gmap string Z) (name other : string) (v : Z) :
  name <> "" ->
  entry_for (<[name := v]> m) name = Some v
  /\ (other <> name -> entry_for (<[name := v]> m) other = entry_for m other).
Proof.
  intros N. unfold entry_for. split.
  - apply truthy_nonempty in N. rewrite N. apply lookup_insert_eq.
  - intros Ne. destruct (PyStr.truthy other); [| reflexivity].
    apply lookup_insert_ne. congruence.
Qed.

Lemma clampRateForSave_range (v : Z) :
  clampRateForSave v = -1 \/ 0 <= clampRateForSave v <= 100.
Proof.
  unfold clampRateForSave.
  destruct (Z.ltb_spec v 0); [now left | right].
  destruct (Z.gtb_spec v 100); lia.
Qed.

Lemma clampRateForSave_id (v : Z) : 0 <= v <= 100 -> clampRateForSave v = v.
Proof.
  intros B. unfold clampRateForSave.
  destruct (Z.ltb_spec v 0); [lia |].
  destruct (Z.gtb_spec v 100); lia.
Qed.

Lemma savedValue_rate (p : Purpose) (h : Host) (ui : Panel) (v : Z) :
  rateSliderOf p ui = Ret v ->
  savedValue (ratesOf p) h ui = Some (clampRateForSave v).
Proof. destruct p; cbn; intros ->; reflexivity. Qed.

Lemma savedValue_boost (p : Purpose) (h : Host) (ui : Panel) (b : Z) :
  boostSliderOf p ui = Ret b ->
  savedValue (boostsOf p) h ui =
  if _isOneCoreSynthName (_getActiveSynthName h) then Some (clampPercent b) else None.
Proof. destruct p; cbn; intros ->; reflexivity. Qed.

(** X17. Saving and reading back: after [onSave] for a known synthesizer
    the rate stored for it is the slider value, with a negative value
    turned into -1 and a value above 100 into 100, so it is -1 or in
    0..100; the rate stored for every other synthesizer is what it was. *)
Theorem onSave_stores_the_rate
        (p : Purpose) (h : Host) (ui : Panel) (v : Z) (m : gmap string Z) :
  _getActiveSynthName h <> "" ->
  rateSliderOf p ui = Ret v ->
  loadSetting (ratesOf p) (_getConf h) = Ret m ->
  dumps_loads (<[_getActiveSynthName h := clampRateForSave v]> m) ->
  exists conf',
    onSave h ui = Ret conf'
    /\ storedRate p conf' (_getActiveSynthName h) = Ret (clampRateForSave v)
    /\ (clampRateForSave v = -1 \/ 0 <= clampRateForSave v <= 100)
    /\ (forall other, other <> _getActiveSynthName h ->
          storedRate p conf' other = storedRate p (_getConf h) other).
Proof.
  intros N S L D.
  destruct (onSave_known h ui N) as (conf' & O & _ & _ & _ & Sc & Ld).
  specialize (Ld (ratesOf p) m L). rewrite (savedValue_rate p h ui v S) in Ld.
  specialize (Ld D).
  destruct (entry_for_insert m (_getActiveSynthName h) (_getActiveSynthName h)
              (clampRateForSave v) N) as [E _].
  exists conf'. split; [exact O |]. split.
  { rewrite (storedRate_from p conf' _ _ Ld), E. reflexivity. }
  split; [apply clampRateForSave_range |].
  intros other Ne.
  destruct (entry_for_insert m (_getActiveSynthName h) other
              (clampRateForSave v) N) as [_ E'].
  rewrite (storedRate_from p conf' _ _ Ld), (storedRate_from p _ _ _ L), (E' Ne), Sc.
  reflexivity.
Qed.

(** X18. [onSave] writes a boost for the OneCore family only: there the
    boost stored for the synthesizer is the slider value clamped into
    0..100; for any other synthesizer the boosts stored are what they
    were, for every name. *)
Theorem onSave_stores_boost_for_onecore_only
        (p : Purpose) (h : Host) (ui : Panel) (b : Z) (mb : gmap string Z) :
  _getActiveSynthName h <> "" ->
  boostSliderOf p ui = Ret b ->
  loadSetting (boostsOf p) (_getConf h) = Ret mb ->
  exists conf',
    onSave h ui = Ret conf'
    /\ (_isOneCoreSynthName (_getActiveSynthName h) = true ->
        dumps_loads (<[_getActiveSynthName h := clampPercent b]> mb) ->
        storedBoost p conf' (_getActiveSynthName h) = Ret (clampPercent b))
    /\ (_isOneCoreSynthName (_getActiveSynthName h) = false ->
        forall name, storedBoost p conf' name = storedBoost p (_getConf h) name).
Proof.
  intros N S L.
  destruct (onSave_known h ui N) as (conf' & O & _ & _ & _ & Sc & Ld).
  specialize (Ld (boostsOf p) mb L). rewrite (savedValue_boost p h ui b S) in Ld.
  exists conf'. split; [exact O |]. split.
  - intros OC D. rewrite OC in Ld. specialize (Ld D).
    destruct (entry_for_insert mb (_getActiveSynthName h) (_getActiveSynthName h)
                (clampPercent b) N) as [E _].
    rewrite (storedBoost_from p conf' _ _ Ld), E. reflexivity.
  - intros OC name. rewrite OC in Ld.
    rewrite (storedBoost_from p conf' _ _ Ld), (storedBoost_from p _ _ _ L), Sc.
    reflexivity.
Qed.

(** The offset of the host once [conf'] is its add-on section. *)
Lemma resolveOffset_with_conf (p : Purpose) (h : Host) (conf' : Conf) (r b : Z) :
  storedRate p conf' (_getActiveSynthName h) = Ret r ->
  storedBoost p conf' (_getActiveSynthName h) = Ret b ->
  resolveOffset p (with_conf h conf') =
  Ret (if purposeEnabled p conf'
       then baseOffset r (_getDefaultSpeechRate h)
            + (if _isOneCoreSynthName (_getActiveSynthName h)
               then clampPercent b else 0)
       else 0).
Proof.
  intros R B.
  destruct (resolveOffset_returns p (with_conf h conf')) as (r' & b' & R' & B' & O).
  cbn [with_conf _getConf _getActiveSynthName _getDefaultSpeechRate] in *.
  rewrite R in R'. rewrite B in B'. injection R' as <-. injection B' as <-.
  exact O.
Qed.

Lemma baseOffset_in_range (r d : Z) : 0 <= r <= 100 -> baseOffset r d = r - d.
Proof.
  intros B. unfold baseOffset. destruct (Z.ltb_spec r 0); [lia |].
  now rewrite clampPercent_id.
Qed.

Lemma clampPercent_idem (b : Z) : clampPercent (clampPercent b) = clampPercent b.
Proof. apply clampPercent_id, clampPercent_range. Qed.

(** X19. The test buttons preview what saving gives: for a known
    synthesizer, a rate slider in 0..100 and a panel built for the same
    synthesizer, the offset resolved after [onSave] is the offset the test
    button uses.  For spelling this always holds; for typing it holds when
    the two enable boxes agree, because the typing test reads the first
    box and the typing computation the flag saved from the second. *)
Theorem test_offset_previews_saved_offset
        (p : Purpose) (h : Host) (ui : Panel) (v b : Z) (m mb : gmap string Z) :
  _getActiveSynthName h <> "" ->
  rateSliderOf p ui = Ret v ->
  0 <= v <= 100 ->
  boostSliderOf p ui = Ret b ->
  _isOneCore ui = _isOneCoreSynthName (_getActiveSynthName h) ->
  (p = Typing -> enableSpellCtrl ui = enableCtrl ui) ->
  loadSetting (ratesOf p) (_getConf h) = Ret m ->
  dumps_loads (<[_getActiveSynthName h := v]> m) ->
  loadSetting (boostsOf p) (_getConf h) = Ret mb ->
  (_isOneCoreSynthName (_getActiveSynthName h) = true ->
   dumps_loads (<[_getActiveSynthName h := clampPercent b]> mb)) ->
  exists conf',
    onSave h ui = Ret conf'
    /\ resolveOffset p (with_conf h conf') = testOffsetFromUI p h ui.
Proof.
  intros N S V SB OC Boxes L D LB DB.
  destruct (onSave_known h ui N) as (conf' & O & En & EnS & _ & Sc & Ld).
  exists conf'. split; [exact O |].
  pose proof (Ld (ratesOf p) m L) as LR.
  rewrite (savedValue_rate p h ui v S), (clampRateForSave_id v V) in LR.
  specialize (LR D).
  pose proof (Ld (boostsOf p) mb LB) as LBo.
  rewrite (savedValue_boost p h ui b SB) in LBo.
  destruct (entry_for_insert m (_getActiveSynthName h) (_getActiveSynthName h) v N)
    as [E _].
  assert (storedRate p conf' (_getActiveSynthName h) = Ret v) as R.
  { rewrite (storedRate_from p conf' _ _ LR), E. reflexivity. }
  destruct (storedBoost_returns p conf' (_getActiveSynthName h)) as [b' B].
  rewrite (resolveOffset_with_conf p h conf' v b' R B), (baseOffset_in_range v _ V).
  assert (purposeEnabled p conf' = enableCtrl ui) as ->.
  { destruct p; cbn [purposeEnabled]; rewrite ?EnS, ?En; cbn [conf_get];
      [apply Boxes |]; reflexivity. }
  assert (_isOneCoreSynthName (_getActiveSynthName h) = true -> b' = clampPercent b)
    as Bv.
  { intros Y. rewrite Y in LBo. specialize (LBo (DB Y)).
    destruct (entry_for_insert mb (_getActiveSynthName h) (_getActiveSynthName h)
                (clampPercent b) N) as [Eb _].
    rewrite (storedBoost_from p conf' _ _ LBo), Eb in B. congruence. }
  destruct p; cbn [testOffsetFromUI rateSliderOf boostSliderOf] in *;
    unfold _getTypingTestOffsetFromUI, _getSpellingTestOffsetFromUI;
    rewrite S, SB, OC; destruct (enableCtrl ui); cbn [negb]; try reflexivity;
    exc_simpl;
    destruct (_isOneCoreSynthName (_getActiveSynthName h)); exc_simpl;
    try rewrite (Bv eq_refl), clampPercent_idem; f_equal; lia.
Qed.

End SettingsProperties.

Section PanelProperties.

Context `{PyLib} `{PyDumps}.

(** The values [makeSettings] shows for a purpose. *)
Lemma makeSettings_shows (p : Purpose) (h : Host) (ui : Panel) (r b : Z) :
  makeSettings h = Ret ui ->
  storedRate p (_getConf h) (_getActiveSynthName h) = Ret r ->
  storedBoost p (_getConf h) (_getActiveSynthName h) = Ret b ->
  rateSliderOf p ui
    = Ret (Z.min (if r <? 0 then _getDefaultSpeechRate h else r) 100)
  /\ boostSliderOf p ui
     = Ret (if _isOneCoreSynthName (_getActiveSynthName h) then clampPercent b else 0)
  /\ enableCtrl ui = conf_get (enabled (_getConf h)) true
  /\ enableSpellCtrl ui
     = conf_get (enabledSpelling (_getConf h)) (conf_get (enabled (_getConf h)) true)
  /\ _isOneCore ui = _isOneCoreSynthName (_getActiveSynthName h).
Proof.
  intros M R B.
  assert (forall x, (if x >? 100 then 100 else x) = Z.min x 100) as Min.
  { intros x. destruct (Z.gtb_spec x 100); lia. }
  unfold makeSettings in M.
  destruct (storedRate_returns Typing (_getConf h) (_getActiveSynthName h)) as [rt Rt].
  destruct (storedRate_returns Spelling (_getConf h) (_getActiveSynthName h)) as [rs Rs].
  destruct (storedBoost_returns Typing (_getConf h) (_getActiveSynthName h)) as [bt Bt].
  destruct (storedBoost_returns Spelling (_getConf h) (_getActiveSynthName h)) as [bs Bs].
  cbn [storedRate storedBoost] in Rt, Rs, Bt, Bs.
  cbv zeta in M. rewrite Rt, Rs in M. cbn [mbind mret exc_mbind exc_mret bind] in M.
  destruct (_isOneCoreSynthName (_getActiveSynthName h));
    rewrite ?Bt, ?Bs in M; cbn [mbind mret exc_mbind exc_mret bind] in M; injection M as <-;
    destruct p; cbn [storedRate storedBoost rateSliderOf boostSliderOf
                     rateSlider boostSlider spellRateSlider spellBoostSlider
                     enableCtrl enableSpellCtrl _isOneCore] in *;
    rewrite ?Min;
    [assert (rt = r) as -> by congruence | assert (rs = r) as -> by congruence
    | assert (rt = r) as -> by congruence | assert (rs = r) as -> by congruence];
    repeat split; congruence.
Qed.

(** X20. Opening the panel and saving without touching a control keeps
    both offsets as they are, for a known synthesizer and a default rate in
    0..100. *)
Theorem saving_untouched_panel_keeps_offset
        (p : Purpose) (h : Host) (ui : Panel) (r b : Z) (m mb : gmap string Z) :
  _getActiveSynthName h <> "" ->
  0 <= _getDefaultSpeechRate h <= 100 ->
  makeSettings h = Ret ui ->
  storedRate p (_getConf h) (_getActiveSynthName h) = Ret r ->
  storedBoost p (_getConf h) (_getActiveSynthName h) = Ret b ->
  loadSetting (ratesOf p) (_getConf h) = Ret m ->
  dumps_loads (<[_getActiveSynthName h :=
                   Z.min (if r <? 0 then _getDefaultSpeechRate h else r) 100]> m) ->
  loadSetting (boostsOf p) (_getConf h) = Ret mb ->
  (_isOneCoreSynthName (_getActiveSynthName h) = true ->
   dumps_loads (<[_getActiveSynthName h := clampPercent b]> mb)) ->
  exists conf',
    onSave h ui = Ret conf'
    /\ resolveOffset p (with_conf h conf') = resolveOffset p h.
Proof.
  intros N Dr M R B L D LB DB.
  set (d := _getDefaultSpeechRate h) in *. set (name := _getActiveSynthName h) in *.
  destruct (makeSettings_shows p h ui r b M R B) as (SR & SB & En & EnS & _).
  fold d name in SR, SB.
  set (x := Z.min (if r <? 0 then d else r) 100) in *.
  assert (0 <= x <= 100) as X.
  { unfold x. destruct (Z.ltb_spec r 0); lia. }
  destruct (onSave_known h ui N) as (conf' & O & En' & EnS' & _ & Sc & Ld).
  fold name in Ld.
  exists conf'. split; [exact O |].
  pose proof (Ld (ratesOf p) m L) as LR.
  rewrite (savedValue_rate p h ui x SR), (clampRateForSave_id x X) in LR.
  specialize (LR D).
  destruct (entry_for_insert m name name x N) as [E _].
  assert (storedRate p conf' name = Ret x) as R'.
  { rewrite (storedRate_from p conf' _ _ LR), E. reflexivity. }
  destruct (storedBoost_returns p conf' name) as [b' B'].
  rewrite (resolveOffset_with_conf p h conf' x b' R' B').
  destruct (resolveOffset_returns p h) as (r0 & b0 & R0 & B0 & ->).
  fold name d in R0, B0 |- *.
  rewrite R in R0. rewrite B in B0. injection R0 as <-. injection B0 as <-.
  assert (purposeEnabled p conf' = purposeEnabled p (_getConf h)) as ->.
  { destruct p; cbn [purposeEnabled]; rewrite ?EnS', ?En', ?EnS, ?En; reflexivity. }
  destruct (purposeEnabled p (_getConf h)); [| reflexivity].
  assert (baseOffset x d = baseOffset r d) as ->.
  { rewrite (baseOffset_in_range x d X). unfold baseOffset, x.
    destruct (Z.ltb_spec r 0).
    - rewrite (clampPercent_id d Dr). lia.
    - unfold clampPercent. destruct (Z.ltb_spec r 0); [lia |].
      destruct (Z.gtb_spec r 100); lia. }
  destruct (_isOneCoreSynthName name) eqn:OC; [| reflexivity].
  pose proof (Ld (boostsOf p) mb LB) as LBo.
  rewrite (savedValue_boost p h ui _ SB) in LBo. fold name in LBo.
  rewrite OC, clampPercent_idem in LBo. specialize (LBo (DB eq_refl)).
  destruct (entry_for_insert mb name name (clampPercent b) N) as [Eb _].
  rewrite (storedBoost_from p conf' _ _ LBo), Eb in B'. injection B' as <-.
  now rewrite clampPercent_idem.
Qed.

(** X21. Saving an untouched panel ends "follow the default rate": a
    negative rate stored for the synthesizer is replaced by the default
    rate of that moment (in 0..100).  From then on a host whose default
    rate has moved to another value gets the offset between the two, where
    it got 0 before. *)
Theorem saving_untouched_panel_pins_default_rate
        (p : Purpose) (h : Host) (ui : Panel) (r : Z) (m : gmap string Z) :
  _getActiveSynthName h <> "" ->
  0 <= _getDefaultSpeechRate h <= 100 ->
  makeSettings h = Ret ui ->
  storedRate p (_getConf h) (_getActiveSynthName h) = Ret r ->
  r < 0 ->
  loadSetting (ratesOf p) (_getConf h) = Ret m ->
  dumps_loads (<[_getActiveSynthName h := _getDefaultSpeechRate h]> m) ->
  exists conf',
    onSave h ui = Ret conf'
    /\ storedRate p conf' (_getActiveSynthName h) = Ret (_getDefaultSpeechRate h)
    /\ forall h2,
         _getConf h2 = conf' ->
         _getActiveSynthName h2 = _getActiveSynthName h ->
         purposeEnabled p conf' = true ->
         _isOneCoreSynthName (_getActiveSynthName h) = false ->
         resolveOffset p h2 = Ret (_getDefaultSpeechRate h - _getDefaultSpeechRate h2).
Proof.
  intros N Dr M R Neg L D.
  set (d := _getDefaultSpeechRate h) in *. set (name := _getActiveSynthName h) in *.
  destruct (storedBoost_returns p (_getConf h) name) as [b B].
  destruct (makeSettings_shows p h ui r b M R B) as (SR & _).
  fold d in SR.
  assert (Z.min (if r <? 0 then d else r) 100 = d) as Xd.
  { destruct (Z.ltb_spec r 0); lia. }
  rewrite Xd in SR.
  destruct (onSave_known h ui N) as (conf' & O & _ & _ & _ & Sc & Ld).
  fold name in Ld.
  pose proof (Ld (ratesOf p) m L) as LR.
  rewrite (savedValue_rate p h ui d SR), (clampRateForSave_id d Dr) in LR.
  specialize (LR D).
  destruct (entry_for_insert m name name d N) as [E _].
  assert (storedRate p conf' name = Ret d) as R'.
  { rewrite (storedRate_from p conf' _ _ LR), E. reflexivity. }
  exists conf'. split; [exact O |]. split; [exact R' |].
  intros h2 C2 N2 En OC.
  destruct (resolveOffset_returns p h2) as (r2 & b2 & R2 & _ & ->).
  rewrite C2, N2 in *. fold name in R2 |- *. rewrite R' in R2. injection R2 as <-.
  rewrite En, OC, (baseOffset_in_range d _ Dr). f_equal. lia.
Qed.

(** X22. With no synthesizer known, [onSave] writes the rate into the
    scalar key of the purpose and leaves the four persisted maps as they
    are; the rate stored for the unknown synthesizer is then the slider
    value, with a negative value turned into -1 and a value above 100 into
    100. *)
Theorem onSave_without_synthesizer
        (p : Purpose) (h : Host) (ui : Panel) (v : Z) :
  _getActiveSynthName h = "" ->
  rateSliderOf p ui = Ret v ->
  exists conf',
    onSave h ui = Ret conf'
    /\ (forall s, rawSetting s conf' = rawSetting s (_getConf h))
    /\ scalarOf (ratesOf p) conf' = Some (clampRateForSave v)
    /\ storedRate p conf' "" = Ret (clampRateForSave v).
Proof.
  intros N S.
  set (c0 := set_applyToWords (applyWordsCtrl ui)
               (set_enabledSpelling (enableSpellCtrl ui)
                  (set_enabled (enableCtrl ui) (_getConf h)))).
  set (c1 := set_typingRate (clampRateForSave (slider_or (rateSlider ui) (-1))) c0).
  set (c2 := set_spellingRate
               (clampRateForSave (slider_or (spellRateSlider ui) (-1))) c1).
  assert (onSave h ui = Ret c2) as O.
  { unfold onSave. cbv zeta. rewrite N.
    change (_isOneCoreSynthName "") with false.
    rewrite (try_except_default (rateSlider ui) (-1)),
            (try_except_default (spellRateSlider ui) (-1)).
    bind_simpl. unfold store_for_synth. cbn [PyStr.truthy].
    destruct (load_int_map_returns (rawSetting TypingRates c0)) as [m1 L1].
    rewrite <- loadSetting_unfold in L1. fold c0. rewrite L1. bind_simpl.
    cbn [setScalar]. fold c1.
    destruct (load_int_map_returns (rawSetting SpellingRates c1)) as [m2 L2].
    rewrite <- loadSetting_unfold in L2. rewrite L2. bind_simpl.
    reflexivity. }
  exists c2. split; [exact O |].
  assert (forall s, rawSetting s c2 = rawSetting s (_getConf h)) as Raw.
  { intros s. destruct s; reflexivity. }
  split; [exact Raw |].
  assert (scalarOf (ratesOf p) c2 = Some (clampRateForSave v)) as Sc.
  { destruct p; cbn [rateSliderOf] in S; unfold c2, c1;
      cbn [ratesOf scalarOf set_spellingRate set_typingRate typingRate spellingRate];
      rewrite S; reflexivity. }
  split; [exact Sc |].
  destruct (load_int_map_returns (rawSetting (ratesOf p) c2)) as [m L].
  rewrite <- loadSetting_unfold in L.
  rewrite (storedRate_from p c2 "" m L), Sc. reflexivity.
Qed.

End PanelProperties.

Section MigrationProperties.

Context `{PyLib} `{PyDumps}.

Lemma migrate_skips (h : Host) (rateOffset : option string) (m : gmap string Z) :
  _loadTypingRatesMap (_getConf h) = Ret m ->
  PyStr.truthy (_getActiveSynthName h)
    && negb (bool_decide (is_Some (m !! _getActiveSynthName h))) = false ->
  _migrateOldConfigIfNeeded h rateOffset = Ret (_getConf h, rateOffset).
Proof.
  intros L C. unfold _migrateOldConfigIfNeeded. rewrite L. bind_simpl.
  rewrite C. destruct rateOffset; bind_simpl; exc_simpl; rewrite C; reflexivity.
Qed.

(** X23. The migration never touches a rate that is already stored for
    the synthesizer, and does nothing when no synthesizer is known: the
    section and the old [rateOffset] key are returned as they are. *)
Theorem migration_keeps_existing_rate
        (h : Host) (rateOffset : option string) (m : gmap string Z) :
  loadSetting TypingRates (_getConf h) = Ret m ->
  _getActiveSynthName h = "" \/ is_Some (m !! _getActiveSynthName h) ->
  _migrateOldConfigIfNeeded h rateOffset = Ret (_getConf h, rateOffset).
Proof.
  intros L C. apply (migrate_skips h rateOffset m L).
  destruct C as [-> | S]; [reflexivity |].
  rewrite (bool_decide_eq_true_2 _ S). apply andb_false_r.
Qed.


(** X25. Without a [rateOffset], a scalar [typingRate] of 0 or more is
    copied to a known synthesizer that has no rate yet, at most 100; a
    negative or absent scalar leaves everything as it is.  A second run
    changes nothing. *)
Theorem migration_of_legacy_rate (h : Host) (m : gmap string Z) :
  let name := _getActiveSynthName h in
  let legacy := conf_get (typingRate (_getConf h)) (-1) in
  loadSetting TypingRates (_getConf h) = Ret m ->
  name <> "" ->
  m !! name = None ->
  (legacy < 0 -> _migrateOldConfigIfNeeded h None = Ret (_getConf h, None))
  /\ (0 <= legacy ->
      dumps_loads (<[name := Z.min legacy 100]> m) ->
      exists conf',
        _migrateOldConfigIfNeeded h None = Ret (conf', None)
        /\ storedRate Typing conf' name = Ret (Z.min legacy 100)
        /\ _migrateOldConfigIfNeeded (with_conf h conf') None = Ret (conf', None)).
Proof.
  intros name legacy L N E.
  assert (forall x, (if x >? 100 then 100 else x) = Z.min x 100) as Min.
  { intros x. destruct (Z.gtb_spec x 100); lia. }
  assert (_migrateOldConfigIfNeeded h None =
            (if legacy >=? 0
             then conf ← _saveTypingRatesMap (_getConf h)
                           (<[name := Z.min legacy 100]> m);
                  mret (conf, None)
             else mret (_getConf h, None))) as U.
  { unfold _migrateOldConfigIfNeeded.
    cbn [loadSetting] in L. rewrite L. bind_simpl. exc_simpl.
    fold name legacy. rewrite (proj1 (truthy_nonempty name) N), E.
    rewrite bool_decide_eq_false_2 by (intros [? ?]; discriminate).
    cbn [negb andb]. destruct (legacy >=? 0); [| reflexivity].
    now rewrite Min. }
  split.
  - intros Neg. rewrite U. destruct (Z.geb_spec legacy 0); [lia | reflexivity].
  - intros Pos D. destruct (load_what_was_dumped _ D) as (s & Ds & Ls).
    set (conf' := set_typingRatesJson s (_getConf h)).
    assert (loadSetting TypingRates conf' = Ret (<[name := Z.min legacy 100]> m)) as L'.
    { rewrite loadSetting_unfold. unfold conf'.
      cbn [rawSetting typingRatesJson set_typingRatesJson].
      now rewrite conf_get_raw_Some. }
    exists conf'. split.
    { rewrite U. destruct (Z.geb_spec legacy 0); [| lia].
      unfold _saveTypingRatesMap. rewrite Ds. reflexivity. }
    destruct (entry_for_insert m name name (Z.min legacy 100) N) as [En _].
    split.
    { rewrite (storedRate_from Typing conf' name _ L'), En. reflexivity. }
    apply (migrate_skips (with_conf h conf') None (<[name := Z.min legacy 100]> m)).
    + exact L'.
    + cbn [with_conf _getActiveSynthName]. fold name.
      rewrite lookup_insert_eq, bool_decide_eq_true_2 by eauto.
      apply andb_false_r.
Qed.

End MigrationProperties.

Section PatchedSpellingProperties.

Context `{PyLib}.

(** X26. The replacement of [speakSpelling] never raises.  Whenever the
    host's [getSpellingSpeech] yields a sequence (with the extra
    arguments or, after a TypeError, without them) the add-on speaks it,
    wrapped or not according to the spelling offset, and the original
    handler is not called; when the add-on's path raises, the original is
    called, the package-level one first, and what it raises is
    swallowed. *)
Theorem patched_speakSpelling_never_raises
        (h : Host) (orig_pkg orig_mod : option (Exc unit))
        (text : Text) (args : list Z) :
  returns (_patched_speakSpelling h orig_pkg orig_mod text args)
  /\ (forall sseq,
        try_except_TypeError (getSpellingSpeech h text args)
                             (getSpellingSpeech h text []) = Ret sseq ->
        exists o, _computeSpellingRateOffset h = Ret o
          /\ _patched_speakSpelling h orig_pkg orig_mod text args =
             Ret (Spoke (if o =? 0 then sseq
                         else [RateCommand (Some o)] ++ sseq ++ [RateCommand None])))
  /\ (forall e,
        try_except_TypeError (getSpellingSpeech h text args)
                             (getSpellingSpeech h text []) = Raise e ->
        _patched_speakSpelling h orig_pkg orig_mod text args =
        Ret (match orig_pkg, orig_mod with
             | Some call, _ | None, Some call =>
                 match call with Ret _ => RanOriginal | Raise _ => Nothing end
             | None, None => Nothing
             end)).
Proof.
  destruct (resolveOffset_returns Spelling h) as (r & b & _ & _ & O).
  cbn [resolveOffset] in O.
  unfold returns, _patched_speakSpelling, _speakSpellingWithSpellingRate.
  rewrite O. bind_simpl.
  destruct (try_except_TypeError _ _) as [sseq | e] eqn:G; bind_simpl.
  - split; [| split].
    + destruct (_ =? 0); cbn; eauto.
    + intros ? [= <-]. eexists. split; [reflexivity |].
      destruct (_ =? 0); reflexivity.
    + intros ? [=].
  - assert (forall A (x : Exc A), try_except (Raise e) x = x) as TE by reflexivity.
    cbn [try_except].
    split; [| split].
    + destruct orig_pkg as [[[]|]|], orig_mod as [[[]|]|]; cbn; eauto.
    + intros ? [=].
    + intros ? _.
      destruct orig_pkg as [[[]|]|], orig_mod as [[[]|]|]; reflexivity.
Qed.

End PatchedSpellingProperties.


(** * The further properties at concrete inputs *)

Ltac sample_dumps_loads :=
  match goal with
  | |- dumps_loads ?m =>
      eexists; exists (map_to_list m);
      split; [reflexivity | split; [vm_compute; reflexivity | reflexivity]]
  end.

Lemma resolveOffset_bounds_witness :
  exists o, @resolveOffset Sample.lib Typing SampleUI.oneCore = Ret o
            /\ -100 <= o <= 200
            /\ (_isOneCoreSynthName (_getActiveSynthName SampleUI.oneCore) = false ->
                o <= 100).
Proof.
  apply (@resolveOffset_bounds Sample.lib Typing SampleUI.oneCore). cbn. lia.
Defined.

Lemma nothing_stored_no_offset_witness :
  @resolveOffset Sample.lib Spelling (SampleUI.fresh "OneCore" 63) = Ret 0
  /\ @_speakWithTypingRate Sample.lib (SampleUI.fresh "OneCore" 63) [Str [104; 105]]
     = Ret [Str [104; 105]].
Proof.
  apply (@nothing_stored_no_offset Sample.lib Spelling (SampleUI.fresh "OneCore" 63)
           [Str [104; 105]]); try reflexivity.
  - exists JSONDecodeError. reflexivity.
  - cbn. lia.
Defined.

Lemma offsets_read_their_own_settings_witness :
  @_computeTypingRateOffset Sample.lib SampleUI.espeak72
  = @_computeTypingRateOffset Sample.lib SampleUI.espeak72'.
Proof.
  apply (proj1 (@offsets_read_their_own_settings Sample.lib
                  SampleUI.espeak72 SampleUI.espeak72' eq_refl eq_refl eq_refl));
    reflexivity.
Defined.

Lemma loaders_keep_integer_entries_witness :
  exists m,
    @loadSetting Sample.lib TypingRates (_getConf SampleUI.espeak72) = Ret m
    /\ forall k n, m !! k = Some n <->
                   exists v, (k, v) ∈ [("espeak", JInt 72)]
                             /\ @py_int Sample.lib v = Ret n.
Proof.
  apply (@loaders_keep_integer_entries Sample.lib TypingRates
           (_getConf SampleUI.espeak72) [("espeak", JInt 72)]).
  - vm_compute. reflexivity.
  - cbn. apply NoDup_singleton.
Defined.

Lemma scalar_fallback_without_entry_witness :
  @storedRate Sample.lib Typing (_getConf SampleUI.espeak72) "" = Ret 90
  /\ @storedBoost Sample.lib Typing (_getConf SampleUI.espeak72) "" = Ret 30.
Proof.
  apply (@scalar_fallback_without_entry Sample.lib Typing (_getConf SampleUI.espeak72) ""
           (@collect_ints Sample.lib [("espeak", JInt 72)]) ∅).
  - reflexivity.
  - reflexivity.
  - left. reflexivity.
Defined.


Lemma buffer_holds_word_characters_witness :
  Forall (fun c => in_LMN (@category0 Sample.lib c) = true \/ c = PROTECTED_CHAR)
         (@typeKeys Sample.lib
            [(Sample.typingHost false None, 104);
             (Sample.typingHost true None, 105);
             (Sample.typingHost false None, 8);
             (Sample.typingHost false None, 233)] []).1.
Proof.
  apply (@buffer_holds_word_characters Sample.lib). constructor.
Defined.


Lemma backspace_takes_back_one_character_witness :
  (@typeKeys Sample.lib
     [(Sample.typingHost true None, 97); (Sample.typingHost false None, 8)] [42]).1
  = [42].
Proof.
  apply (@backspace_takes_back_one_character Sample.lib
           (Sample.typingHost true None) (Sample.typingHost false None) 97 [42]).
  reflexivity.
Defined.

Lemma echo_off_is_silent_witness :
  Forall (fun c => exists w, c = LogIo w)
         (@typeKeys Sample.lib (map (pair SampleUI.silentHost) [99; 97; 116; 32; 33]) []).2.
Proof.
  apply (@echo_off_is_silent Sample.lib). repeat constructor.
Defined.

Lemma control_character_is_not_echoed_witness :
  Forall (fun c => isCharRequest c = false)
         (@_patched_speakTypedCharacters Sample.lib
            (Sample.typingHost false (Some true)) 13 [97]).2.
Proof.
  apply (@control_character_is_not_echoed Sample.lib). reflexivity.
Defined.

Lemma unpatch_undoes_patch_witness :
  Patching._unpatchSpeech (Patching._patchSpeech SampleUI.speech) = SampleUI.speech.
Proof.
  apply PatchingFacts.unpatch_undoes_patch. repeat split.
Defined.

Lemma handlers_are_never_lost_witness :
  Patching.run ([Patching.Patch; Patching.Patch; Patching.Unpatch; Patching.Patch]
                ++ [Patching.Unpatch]) SampleUI.speech
  = SampleUI.speech.
Proof.
  apply PatchingFacts.handlers_are_never_lost. repeat split.
Defined.

Lemma patch_replaces_present_handlers_witness :
  Patching.typedHandlers (Patching._patchSpeech SampleUI.speech)
  = (Some Patching.patched_speakTypedCharacters,
     Some Patching.patched_speakTypedCharacters)
  /\ Patching.spellingHandlers (Patching._patchSpeech SampleUI.speech)
     = (Some Patching.patched_speakSpelling, None).
Proof.
  apply (proj1 (PatchingFacts.patch_replaces_present_handlers SampleUI.speech
                  ltac:(repeat split)) (Patching.HostHandler 1)).
  reflexivity.
Defined.

Lemma onSave_stores_the_rate_witness :
  exists conf',
    @onSave Sample.lib SampleUI.lib (SampleUI.fresh "espeak" 50) (SampleUI.panel 172 0)
    = Ret conf'
    /\ @storedRate Sample.lib Typing conf' "espeak" = Ret 100.
Proof.
  destruct (@onSave_stores_the_rate Sample.lib SampleUI.lib Typing
              (SampleUI.fresh "espeak" 50) (SampleUI.panel 172 0) 172 ∅)
    as (conf' & O & R & _).
  - discriminate.
  - reflexivity.
  - reflexivity.
  - sample_dumps_loads.
  - exists conf'. split; [exact O | exact R].
Defined.

Lemma onSave_stores_boost_for_onecore_only_witness :
  exists conf',
    @onSave Sample.lib SampleUI.lib (SampleUI.fresh "OneCore" 50)
            (SampleUI.oneCorePanel 72 150) = Ret conf'
    /\ @storedBoost Sample.lib Typing conf' "OneCore" = Ret 100.
Proof.
  destruct (@onSave_stores_boost_for_onecore_only Sample.lib SampleUI.lib Typing
              (SampleUI.fresh "OneCore" 50) (SampleUI.oneCorePanel 72 150) 150 ∅)
    as (conf' & O & B & _).
  - discriminate.
  - reflexivity.
  - reflexivity.
  - exists conf'. split; [exact O |].
    apply B; [reflexivity | sample_dumps_loads].
Defined.

Lemma test_offset_previews_saved_offset_witness :
  exists conf',
    @onSave Sample.lib SampleUI.lib (SampleUI.fresh "OneCore" 50)
            (SampleUI.oneCorePanel 72 150) = Ret conf'
    /\ @resolveOffset Sample.lib Spelling (with_conf (SampleUI.fresh "OneCore" 50) conf')
       = @testOffsetFromUI Spelling (SampleUI.fresh "OneCore" 50)
                           (SampleUI.oneCorePanel 72 150).
Proof.
  apply (@test_offset_previews_saved_offset Sample.lib SampleUI.lib Spelling
           (SampleUI.fresh "OneCore" 50) (SampleUI.oneCorePanel 72 150) 72 150 ∅ ∅).
  - discriminate.
  - reflexivity.
  - lia.
  - reflexivity.
  - reflexivity.
  - discriminate.
  - reflexivity.
  - sample_dumps_loads.
  - reflexivity.
  - intros _. sample_dumps_loads.
Defined.

Lemma saving_untouched_panel_keeps_offset_witness :
  exists conf',
    @onSave Sample.lib SampleUI.lib SampleUI.followDefault (SampleUI.panel 50 0)
    = Ret conf'
    /\ @resolveOffset Sample.lib Typing (with_conf SampleUI.followDefault conf')
       = @resolveOffset Sample.lib Typing SampleUI.followDefault.
Proof.
  apply (@saving_untouched_panel_keeps_offset Sample.lib SampleUI.lib Typing
           SampleUI.followDefault (SampleUI.panel 50 0) (-1) 0
           (@collect_ints Sample.lib [("espeak", JInt (-1))]) ∅).
  - discriminate.
  - cbn. lia.
  - vm_compute. reflexivity.
  - vm_compute. reflexivity.
  - vm_compute. reflexivity.
  - reflexivity.
  - sample_dumps_loads.
  - reflexivity.
  - intros OC. vm_compute in OC. discriminate OC.
Defined.

Lemma saving_untouched_panel_pins_default_rate_witness :
  exists conf',
    @onSave Sample.lib SampleUI.lib SampleUI.followDefault (SampleUI.panel 50 0)
    = Ret conf'
    /\ @storedRate Sample.lib Typing conf' "espeak" = Ret 50.
Proof.
  destruct (@saving_untouched_panel_pins_default_rate Sample.lib SampleUI.lib Typing
              SampleUI.followDefault (SampleUI.panel 50 0) (-1)
              (@collect_ints Sample.lib [("espeak", JInt (-1))]))
    as (conf' & O & R & _).
  - discriminate.
  - cbn. lia.
  - vm_compute. reflexivity.
  - vm_compute. reflexivity.
  - lia.
  - reflexivity.
  - sample_dumps_loads.
  - exists conf'. split; [exact O | exact R].
Defined.

Lemma onSave_without_synthesizer_witness :
  exists conf',
    @onSave Sample.lib SampleUI.lib (SampleUI.fresh "" 50) (SampleUI.panel (-3) 0)
    = Ret conf'
    /\ @storedRate Sample.lib Spelling conf' "" = Ret (-1).
Proof.
  destruct (@onSave_without_synthesizer Sample.lib SampleUI.lib Spelling
              (SampleUI.fresh "" 50) (SampleUI.panel (-3) 0) (-3))
    as (conf' & O & _ & _ & R).
  - reflexivity.
  - reflexivity.
  - exists conf'. split; [exact O | exact R].
Defined.

Lemma migration_keeps_existing_rate_witness :
  @_migrateOldConfigIfNeeded Sample.lib SampleUI.lib SampleUI.espeak72 (Some "5")
  = Ret (_getConf SampleUI.espeak72, Some "5").
Proof.
  apply (@migration_keeps_existing_rate Sample.lib SampleUI.lib SampleUI.espeak72
           (Some "5") (@collect_ints Sample.lib [("espeak", JInt 72)])).
  - reflexivity.
  - right. exists 72. vm_compute. reflexivity.
Defined.


Lemma migration_of_legacy_rate_witness :
  exists conf',
    @_migrateOldConfigIfNeeded Sample.lib SampleUI.lib
      (Sample.host (Sample.conf None (Some 120) None None) "espeak" 50) None
    = Ret (conf', None)
    /\ @storedRate Sample.lib Typing conf' "espeak" = Ret 100.
Proof.
  destruct (@migration_of_legacy_rate Sample.lib SampleUI.lib
              (Sample.host (Sample.conf None (Some 120) None None) "espeak" 50) ∅)
    as (_ & P).
  - reflexivity.
  - discriminate.
  - reflexivity.
  - destruct P as (conf' & M & R & _).
    + cbn. lia.
    + sample_dumps_loads.
    + exists conf'. split; [exact M | exact R].
Defined.
